(** * htmltest: the link checker of [check-link.go]

    A shallow embedding of [CheckLink], [CheckExternal], [CheckInternal],
    [CheckFile], [CheckMailto] and [CheckTel], with the packages they call
    kept as modules of the same names.  Everything the Go code does to the
    outside (issue sink, result cache, HTTP requests, [os.Stat], the
    operator log) is threaded through an explicit [World]. *)

From Stdlib Require Import ZArith String Ascii List Bool Lia.
From stdpp Require Import base option list strings gmap fin_maps.

Import ListNotations.
Local Open Scope string_scope.
Local Open Scope Z_scope.

(** ** Go's [strings] package (the three functions the checker uses) *)

Module strings.

Fixpoint HasPrefix (s prefix : string) : bool :=
  match prefix, s with
  | EmptyString, _ => true
  | String a p', String b s' => Ascii.eqb a b && HasPrefix s' p'
  | String _ _, EmptyString => false
  end.

(** [Contains s substr]: [substr] occurs somewhere in [s]. *)
Fixpoint Contains (s substr : string) : bool :=
  HasPrefix s substr ||
  match s with
  | EmptyString => false
  | String _ s' => Contains s' substr
  end.

Fixpoint drop (n : nat) (s : string) : string :=
  match n, s with
  | O, _ => s
  | S n', String _ s' => drop n' s'
  | S _, EmptyString => EmptyString
  end.

(** [TrimPrefix s prefix]: [s] without the leading [prefix]; [s] itself
    when it does not start with [prefix]. *)
Definition TrimPrefix (s prefix : string) : string :=
  if HasPrefix s prefix then drop (String.length prefix) s else s.

Definition HasSuffix (s suffix : string) : bool :=
  (String.length suffix <=? String.length s)%nat &&
  String.eqb (drop (String.length s - String.length suffix) s) suffix.

End strings.

(** ** Go's [path] package: [Clean] and [Join]

    [path.Clean] scans the path element by element (elements are what lies
    between slashes) and keeps a write buffer with a mark [dotdot] below
    which it may not backtrack.  The buffer is kept here as the number of
    leading [..] elements it holds (only possible when the path is not
    rooted) and the real elements written after them, last one first. *)

Module path.

Definition slash : ascii := "/"%char.

(** The elements of a path: the pieces between slashes, empty ones
    included, as [strings.Split(p, "/")] gives them. *)
Fixpoint elements (p : string) : list string :=
  match p with
  | EmptyString => [EmptyString]
  | String c p' =>
      if Ascii.eqb c slash then EmptyString :: elements p'
      else match elements p' with
           | e :: es => String c e :: es
           | [] => [String c EmptyString]
           end
  end.

Fixpoint joinElements (es : list string) : string :=
  match es with
  | [] => EmptyString
  | [e] => e
  | e :: es' => e ++ "/" ++ joinElements es'
  end.

Definition rooted (p : string) : bool :=
  match p with
  | String c _ => Ascii.eqb c slash
  | EmptyString => false
  end.

(** The buffer of [Clean]: [ups] leading [..] elements, then [stack]
    (reversed). *)
Record buf := Buf { ups : nat; stack : list string }.

(** One turn of the loop of [Clean], on the element [e]. *)
Definition step (isRooted : bool) (b : buf) (e : string) : buf :=
  if String.eqb e "" then b                      (* empty path element *)
  else if String.eqb e "." then b                (* . element *)
  else if String.eqb e ".." then                 (* .. element *)
    match stack b with
    | _ :: below => Buf (ups b) below            (* can backtrack *)
    | [] => if isRooted then b                   (* at the root: dropped *)
            else Buf (S (ups b)) []              (* append .. element *)
    end
  else Buf (ups b) (e :: stack b).               (* real path element *)

Definition run (isRooted : bool) (b : buf) (es : list string) : buf :=
  fold_left (step isRooted) es b.

Definition render (isRooted : bool) (b : buf) : string :=
  let body := joinElements (repeat ".." (ups b) ++ rev (stack b)) in
  if isRooted then "/" ++ body
  else if String.eqb body "" then "." else body.

Definition Clean (p : string) : string :=
  if String.eqb p "" then "."
  else render (rooted p) (run (rooted p) (Buf 0 []) (elements p)).

(** [path.Join(a, b)]: empty elements are ignored, the rest is joined
    with a slash and cleaned; the result is empty only when both are. *)
Definition Join (a b : string) : string :=
  if String.eqb a "" then (if String.eqb b "" then "" else Clean b)
  else if String.eqb b "" then Clean a
  else Clean (a ++ "/" ++ b).

End path.

(** ** [golang.org/x/net/html]: the part of a node the checker reads *)

Module html.

Record Attribute := { Namespace : string; Key : string; Val : string }.

Record Node := { Data : string; Attr : list Attribute }.

End html.

(** ** [net/url] *)

Module url.

Record URL := {
  Scheme : string; Opaque : string; Host : string;
  Path : string; RawQuery : string; Fragment : string
}.

End url.

(** ** Package [htmldoc] *)

Module htmldoc.

(** Modelled from the spec: the [Document] type is declared outside
    [check-link.go]; the spec gives it a root-relative path. *)
Record Document := { SitePath : string }.

(** The fields of a [Reference] that [check-link.go] reads:
    [ref.Scheme], [ref.Path] and [ref.URL.Opaque], with the document and
    node it was made from. *)
Record Reference := {
  Document_ : Document;
  Node : html.Node;
  Path : string;
  Scheme : string;
  URL : url.URL
}.

(** The functions of the package that the checker calls.  Their code is
    not part of [check-link.go]; the checker is verified for every
    implementation of them. *)
Class API := {
  NewReference : Document -> html.Node -> string -> Reference;
  URLString : Reference -> string;
  URLStripQueryString : string -> string;
  AbsolutePath : Reference -> string
}.

End htmldoc.

(** ** Package [issues] *)

Module issues.

Inductive Level := DEBUG | ERROR.

Record Issue := {
  Level_ : Level;
  Message : string;
  Reference : option htmldoc.Reference;
  Document : option htmldoc.Document
}.

End issues.

(** ** [net/http] as the checker sees it *)

Module http.

Definition StatusOK : Z := 200.
Definition StatusPartialContent : Z := 206.

(** [http.StatusText]: a table of the standard library, kept abstract. *)
Class Texts := { StatusText : Z -> string }.

Record Request := {
  Method : string;
  URL : string;
  Header : list (string * list string)
}.

(** What [httpClient.Do] returns: a response, of which only the status
    code is read, or an error, of which only the text is read. *)
Inductive Result :=
| Response (StatusCode : Z)
| Error (text : string).

(** The network: the answer to a request may depend on how many requests
    were made before it, so that transient failures are covered. *)
Definition Network := nat -> Request -> Result.

End http.

(** ** [os.Stat] over a finite file system *)

Module os.

Inductive Entry :=
| Directory
| RegularFile
| Unreadable (err : string).   (* stat fails, and not with "not exist" *)

(** A file system: finitely many paths have an entry. *)
Abbreviation FileSystem := (gmap string Entry).

Inductive StatResult :=
| FileInfo (IsDir : bool)
| ErrNotExist
| ErrOther (err : string).

Definition Stat (fs : FileSystem) (name : string) : StatResult :=
  match fs !! name with
  | None => ErrNotExist
  | Some Directory => FileInfo true
  | Some RegularFile => FileInfo false
  | Some (Unreadable e) => ErrOther e
  end.

End os.

(** ** The configuration [Opts] *)

Module Options.

Record t := {
  EnforceHTTPS : bool;
  CheckExternal : bool;
  CheckInternal : bool;
  CheckMailto : bool;
  CheckTel : bool;
  StripQueryString : bool;
  StripQueryExcludes : list string;
  DirectoryPath : string;
  DirectoryIndex : string
}.

End Options.

(** ** The world the checker acts on *)

Record World := mkWorld {
  sink : list issues.Issue;          (* the issue sink, oldest first *)
  urlStatus : gmap string Z;         (* the store of package refcache *)
  requests : list http.Request;      (* requests sent, oldest first *)
  statCalls : list string;           (* paths handed to os.Stat *)
  logLines : list string             (* lines written with log.Println *)
}.

(** A call either returns or aborts the whole run ([checkErr]). *)
Inductive Outcome :=
| Returned (w : World)
| Aborted (err : string) (w : World).

Module Import effects.

(** Modelled from the spec: [issues.AddIssue] is outside
    [check-link.go]; the sink is append-only. *)
Definition AddIssue (i : issues.Issue) (w : World) : World :=
  mkWorld (sink w ++ [i]) (urlStatus w) (requests w) (statCalls w) (logLines w).

Definition Println (line : string) (w : World) : World :=
  mkWorld (sink w) (urlStatus w) (requests w) (statCalls w) (logLines w ++ [line]).

(** [httpClient.Do(req)]: the request is sent and answered by the
    network. *)
Definition Do (net : http.Network) (req : http.Request) (w : World)
  : http.Result * World :=
  (net (length (requests w)) req,
   mkWorld (sink w) (urlStatus w) (requests w ++ [req]) (statCalls w) (logLines w)).

(** The world once [name] has been stat'ed: nothing but the record of the
    call is new. *)
Definition stated (name : string) (w : World) : World :=
  mkWorld (sink w) (urlStatus w) (requests w) (statCalls w ++ [name]) (logLines w).

Definition Stat (fs : os.FileSystem) (name : string) (w : World)
  : os.StatResult * World :=
  (os.Stat fs name, stated name w).

End effects.

(** ** Package [refcache] *)

Module refcache.

(** Modelled from the spec: the package is outside [check-link.go]; it
    maps a URL to the status code seen for it, and 0 stands for a URL
    that has none. *)
Definition CachedURLStatus (urlStr : string) (w : World) : Z :=
  default 0 (urlStatus w !! urlStr).

Definition SetCachedURLStatus (urlStr : string) (status : Z) (w : World) : World :=
  mkWorld (sink w) (<[urlStr := status]> (urlStatus w)) (requests w)
          (statCalls w) (logLines w).

End refcache.

(** ** Helpers of package [htmltest] that live outside [check-link.go] *)

(** Modelled from the spec: [extractAttrs] is outside [check-link.go]; it
    turns the attribute list of a node into a mapping from attribute name
    to value, for the names asked for. *)
Definition extractAttrs (attrs : list html.Attribute) (keys : list string)
  : gmap string string :=
  foldr (fun a m => if bool_decide (html.Key a ∈ keys)
                    then <[html.Key a := html.Val a]> m else m) ∅ attrs.

(** Modelled from the spec: [attrPresent] is outside [check-link.go]; it
    tells whether the node carries an attribute of that name. *)
Definition attrPresent (attrs : list html.Attribute) (key : string) : bool :=
  existsb (fun a => String.eqb (html.Key a) key) attrs.

(** Indexing a Go [map[string]string]: a missing key reads as [""]. *)
Definition index (m : gmap string string) (key : string) : string :=
  default "" (m !! key).

(** [InList] is outside [check-link.go] and kept abstract. *)
Class Util := { InList : list string -> string -> bool }.

(** Modelled from the spec: [checkErr] is outside [check-link.go]; called
    on a stat error that is not "not exist", it aborts the run. *)
Definition checkErr (err : string) (w : World) : Outcome := Aborted err w.

(** ** [check-link.go] *)

Section Checker.

Context `{htmldoc.API} `{http.Texts} `{Util}.
Variable Opts : Options.t.
Variable net : http.Network.
Variable fs : os.FileSystem.

Definition refIssue (l : issues.Level) (msg : string) (ref : htmldoc.Reference)
  : issues.Issue :=
  {| issues.Level_ := l; issues.Message := msg;
     issues.Reference := Some ref; issues.Document := None |}.

Definition docIssue (l : issues.Level) (msg : string) (doc : htmldoc.Document)
  : issues.Issue :=
  {| issues.Level_ := l; issues.Message := msg;
     issues.Reference := None; issues.Document := Some doc |}.

(** The key under which [CheckExternal] caches: the URL string of the
    reference, with the query string stripped when configured. *)
Definition cacheKey (ref : htmldoc.Reference) : string :=
  let urlStr := htmldoc.URLString ref in
  if Options.StripQueryString Opts
     && negb (InList (Options.StripQueryExcludes Opts) urlStr)
  then htmldoc.URLStripQueryString urlStr
  else urlStr.

Definition probe (urlStr : string) : http.Request :=
  {| http.Method := "GET"; http.URL := urlStr;
     http.Header := [("Range", ["bytes=0-63"])] |}.

(** The [switch statusCode] that ends [CheckExternal]. *)
Definition reportStatus (ref : htmldoc.Reference) (statusCode : Z) (w : World)
  : World :=
  if statusCode =? http.StatusOK then
    AddIssue (refIssue issues.DEBUG (http.StatusText statusCode) ref) w
  else if statusCode =? http.StatusPartialContent then
    AddIssue (refIssue issues.DEBUG (http.StatusText statusCode) ref) w
  else
    AddIssue (refIssue issues.ERROR (http.StatusText statusCode) ref) w.

Definition CheckExternal (ref : htmldoc.Reference) (w : World) : World :=
  if negb (Options.CheckExternal Opts) then
    AddIssue (refIssue issues.DEBUG "skipping" ref) w
  else
    let urlStr := cacheKey ref in
    if negb (refcache.CachedURLStatus urlStr w =? 0) then
      (* If we have the result in cache, return that *)
      reportStatus ref (refcache.CachedURLStatus urlStr w) w
    else
      match Do net (probe urlStr) w with
      | (http.Error err, w1) =>
          if strings.Contains err "dial tcp" then
            (* Remove long prefix *)
            let prefix := "Get " ++ urlStr ++ ": dial tcp: lookup " in
            let cleanedMessage := strings.TrimPrefix err prefix in
            AddIssue (refIssue issues.ERROR cleanedMessage ref) w1
          else if strings.Contains err "Client.Timeout" then
            AddIssue (refIssue issues.ERROR
                        "request exceeded our ExternalTimeout" ref) w1
          else
            (* Unhandled client error, return generic error *)
            Println ("Unhandled httpClient error: " ++ err)
              (AddIssue (refIssue issues.ERROR err ref) w1)
      | (http.Response StatusCode, w1) =>
          (* Save cached result *)
          reportStatus ref StatusCode
            (refcache.SetCachedURLStatus urlStr StatusCode w1)
      end.

Fixpoint CheckFile (fuel : nat) (ref : htmldoc.Reference) (fPath : string)
  (w : World) : option Outcome :=
  match fuel with
  | O => None
  | S fuel' =>
      (* fPath should be relative to site root *)
      let checkPath := path.Join (Options.DirectoryPath Opts) fPath in
      match Stat fs checkPath w with
      | (os.ErrNotExist, w1) =>
          Some (Returned
                  (AddIssue (refIssue issues.ERROR "target does not exist" ref) w1))
      | (os.ErrOther err, w1) =>
          Some (checkErr err w1) (* Crash on other errors *)
      | (os.FileInfo IsDir, w1) =>
          if IsDir then
            if negb (strings.HasSuffix (htmldoc.Path ref) "/") then
              Some (Returned
                      (AddIssue
                         (refIssue issues.ERROR
                            "target is a directory, href lacks trailing slash" ref)
                         w1))
            else
              CheckFile fuel' ref
                (path.Join fPath (Options.DirectoryIndex Opts))
                (AddIssue (refIssue issues.DEBUG "target is a directory" ref) w1)
          else Some (Returned w1)
      end
  end.

Definition CheckInternal (fuel : nat) (ref : htmldoc.Reference) (w : World)
  : option Outcome :=
  if negb (Options.CheckInternal Opts) then
    Some (Returned (AddIssue (refIssue issues.DEBUG "skipping" ref) w))
  else
    CheckFile fuel ref (htmldoc.AbsolutePath ref) w.

Definition CheckMailto (ref : htmldoc.Reference) (w : World) : World :=
  if negb (Options.CheckMailto Opts) then w
  else if (String.length (url.Opaque (htmldoc.URL ref)) =? 0)%nat then
    AddIssue (refIssue issues.ERROR "mailto is empty" ref) w
  else if negb (strings.Contains (url.Opaque (htmldoc.URL ref)) "@") then
    AddIssue (refIssue issues.ERROR "contains an invalid email address" ref) w
  else w.

Definition CheckTel (ref : htmldoc.Reference) (w : World) : World :=
  if negb (Options.CheckTel Opts) then w
  else if (String.length (url.Opaque (htmldoc.URL ref)) =? 0)%nat then
    AddIssue (refIssue issues.ERROR "tel is empty" ref) w
  else w.

(** The [switch ref.Scheme] that ends [CheckLink] ("Route reference
    check"). *)
Definition routeReference (fuel : nat) (ref : htmldoc.Reference) (w : World)
  : option Outcome :=
  if String.eqb (htmldoc.Scheme ref) "http" then
    Some (Returned
            (CheckExternal ref
               (if Options.EnforceHTTPS Opts
                then AddIssue (refIssue issues.ERROR "is not an HTTPS target" ref) w
                else w)))
  else if String.eqb (htmldoc.Scheme ref) "https" then
    Some (Returned (CheckExternal ref w))
  else if String.eqb (htmldoc.Scheme ref) "file" then
    CheckInternal fuel ref w
  else if String.eqb (htmldoc.Scheme ref) "mailto" then
    Some (Returned (CheckMailto ref w))
  else if String.eqb (htmldoc.Scheme ref) "tel" then
    Some (Returned (CheckTel ref w))
  else Some (Returned w).

Definition CheckLink (fuel : nat) (document : htmldoc.Document)
  (node : html.Node) (w : World) : option Outcome :=
  let attrs := extractAttrs (html.Attr node) ["href"; "rel"; "data-proofer-ignore"] in
  (* Do not check canonical links *)
  if String.eqb (index attrs "rel") "canonical" then Some (Returned w)
  (* Ignore if data-proofer-ignore set *)
  else if attrPresent (html.Attr node) "data-proofer-ignore" then Some (Returned w)
  (* Check href present, fail for link nodes *)
  else if negb (attrPresent (html.Attr node) "href")
          && String.eqb (html.Data node) "a" then
    Some (Returned (AddIssue (docIssue issues.DEBUG "anchor without href" document) w))
  else if negb (attrPresent (html.Attr node) "href")
          && String.eqb (html.Data node) "link" then
    Some (Returned (AddIssue (docIssue issues.ERROR "link tag missing href" document) w))
  else
    (* Create reference *)
    let ref := htmldoc.NewReference document node (index attrs "href") in
    (* Blank href *)
    if String.eqb (index attrs "href") "" then
      Some (Returned (AddIssue (refIssue issues.ERROR "href blank" ref) w))
    (* href="#" *)
    else if String.eqb (index attrs "href") "#" then
      Some (Returned (AddIssue (refIssue issues.ERROR "empty hash" ref) w))
    else routeReference fuel ref w.

End Checker.


(** ** A sample implementation of the collaborators

    Used to run the checker on concrete inputs.  The scheme of a reference
    is what stands before the first colon of the href ([file] when there is
    no colon), its opaque part is what follows it. *)

Fixpoint cutAt (sep : ascii) (s : string) : option (string * string) :=
  match s with
  | EmptyString => None
  | String c s' =>
      if Ascii.eqb c sep then Some (EmptyString, s')
      else match cutAt sep s' with
           | Some (before, after) => Some (String c before, after)
           | None => None
           end
  end.

Definition sampleReference (document : htmldoc.Document) (node : html.Node)
  (href : string) : htmldoc.Reference :=
  let '(scheme, opaque) :=
    match cutAt ":"%char href with
    | Some (scheme, rest) => (scheme, rest)
    | None => ("file", "")
    end in
  {| htmldoc.Document_ := document; htmldoc.Node := node;
     htmldoc.Path := href; htmldoc.Scheme := scheme;
     htmldoc.URL := {| url.Scheme := scheme; url.Opaque := opaque;
                       url.Host := ""; url.Path := href;
                       url.RawQuery := ""; url.Fragment := "" |} |}.

Definition sampleAPI : htmldoc.API :=
  {| htmldoc.NewReference := sampleReference;
     htmldoc.URLString := htmldoc.Path;
     htmldoc.URLStripQueryString :=
       fun s => match cutAt "?"%char s with
                | Some (before, _) => before
                | None => s
                end;
     htmldoc.AbsolutePath := htmldoc.Path |}.

Definition sampleTexts : http.Texts :=
  {| http.StatusText := fun code =>
       if code =? 200 then "OK"
       else if code =? 206 then "Partial Content"
       else if code =? 404 then "Not Found"
       else "" |}.

Definition sampleUtil : Util :=
  {| InList := fun l s => existsb (String.eqb s) l |}.

Definition sampleOpts : Options.t :=
  {| Options.EnforceHTTPS := true;
     Options.CheckExternal := true;
     Options.CheckInternal := true;
     Options.CheckMailto := true;
     Options.CheckTel := true;
     Options.StripQueryString := true;
     Options.StripQueryExcludes := [];
     Options.DirectoryPath := "site";
     Options.DirectoryIndex := "index.html" |}.

Definition attr (key val : string) : html.Attribute :=
  {| html.Namespace := ""; html.Key := key; html.Val := val |}.

Definition element (tag : string) (attrs : list html.Attribute) : html.Node :=
  {| html.Data := tag; html.Attr := attrs |}.

Definition sampleDoc : htmldoc.Document := {| htmldoc.SitePath := "index.html" |}.

Definition emptyWorld : World := mkWorld [] ∅ [] [] [].

Definition sampleLink (href : string) : html.Node :=
  element "a" [attr "href" href].

Definition sampleRef (href : string) : htmldoc.Reference :=
  sampleReference sampleDoc (sampleLink href) href.

(** A network that answers every request with the same status code. *)
Definition always (status : Z) : http.Network := fun _ _ => http.Response status.

(** A network on which every request fails with the same error. *)
Definition failing (err : string) : http.Network := fun _ _ => http.Error err.

(** ** Runs, and the two properties of a run that the spec states

    A run checks one node after the other on the same configuration,
    network and file system; [later w w'] says that [w'] is reached from
    [w] by any number of checks that returned. *)

Section Run.

Context `{htmldoc.API} `{http.Texts} `{Util}.
Variable Opts : Options.t.
Variable net : http.Network.
Variable fs : os.FileSystem.

Inductive later : World -> World -> Prop :=
| later_now (w : World) : later w w
| later_check (w w1 w2 : World) (fuel : nat) (doc : htmldoc.Document)
    (node : html.Node) :
    later w w1 ->
    CheckLink Opts net fs fuel doc node w1 = Some (Returned w2) ->
    later w w2.

(** Cache idempotence for a first external check of [ref1] in [w0] that is
    answered with the status [status]: every later external check of a
    reference [ref2] with the same key sends nothing, leaves the cache as
    it is, and reports the level and message the first check reported. *)
Definition reusesStatus (ref1 ref2 : htmldoc.Reference) (w0 : World)
  (status : Z) : Prop :=
  Options.CheckExternal Opts = true ->
  cacheKey Opts ref2 = cacheKey Opts ref1 ->
  refcache.CachedURLStatus (cacheKey Opts ref1) w0 = 0 ->
  net (length (requests w0)) (probe (cacheKey Opts ref1)) = http.Response status ->
  forall w : World,
    later (CheckExternal Opts net ref1 w0) w ->
    requests (CheckExternal Opts net ref2 w) = requests w
    /\ urlStatus (CheckExternal Opts net ref2 w) = urlStatus w
    /\ exists (level : issues.Level) (msg : string),
         sink (CheckExternal Opts net ref1 w0)
         = (sink w0 ++ [refIssue level msg ref1])%list
         /\ sink (CheckExternal Opts net ref2 w)
            = (sink w ++ [refIssue level msg ref2])%list.

End Run.

(** The cache holds [status] for [urlStr]. *)
Definition holds (urlStr : string) (status : Z) (w : World) : Prop :=
  refcache.CachedURLStatus urlStr w = status.

(** [CheckFile] returns, or aborts the run, when it is given enough fuel. *)
Definition terminates (Opts : Options.t) (fs : os.FileSystem)
  (ref : htmldoc.Reference) (fPath : string) (w : World) : Prop :=
  exists (fuel : nat) (out : Outcome), CheckFile Opts fs fuel ref fPath w = Some out.

Fixpoint noSlash (e : string) : bool :=
  match e with
  | EmptyString => true
  | String c e' => negb (Ascii.eqb c path.slash) && noSlash e'
  end.

(** A file name proper: one path element that [path.Clean] keeps. *)
Definition properName (e : string) : bool :=
  negb (String.eqb e "") && negb (String.eqb e ".")
  && negb (String.eqb e "..") && noSlash e.

(** What [Clean] keeps in its buffer: real elements only, and no leading
    [..] when the path is rooted. *)
Definition tidy (r : bool) (b : path.buf) : Prop :=
  Forall (fun e => properName e = true) (path.stack b)
  /\ (r = true -> path.ups b = 0%nat).

(** The elements a buffer is rendered from. *)
Definition rendered (b : path.buf) : list string :=
  (repeat ".." (path.ups b) ++ rev (path.stack b))%list.

(** A cleaned path with at least [n] real elements, and at least one. *)
Definition cleaned (n : nat) (p : string) : Prop :=
  exists (r : bool) (b : path.buf),
    p = path.render r b /\ tidy r b
    /\ (1 <= length (path.stack b))%nat /\ (n <= length (path.stack b))%nat.

Definition worldOf (out : Outcome) : World :=
  match out with
  | Returned w => w
  | Aborted _ w => w
  end.

(** A configuration whose index name is [.], and a site that is one
    directory. *)
Definition dotOpts : Options.t :=
  {| Options.EnforceHTTPS := false;
     Options.CheckExternal := true;
     Options.CheckInternal := true;
     Options.CheckMailto := true;
     Options.CheckTel := true;
     Options.StripQueryString := false;
     Options.StripQueryExcludes := [];
     Options.DirectoryPath := "site";
     Options.DirectoryIndex := "." |}.

Definition siteOnly : os.FileSystem := {[ "site" := os.Directory ]}.

(** A site whose index file is itself a directory. *)
Definition nestedSite : os.FileSystem :=
  {[ "site" := os.Directory; "site/index.html" := os.Directory ]}.

(** ** References as the spec describes them *)

Definition lowerAscii (c : ascii) : ascii :=
  let n := nat_of_ascii c in
  if (65 <=? n)%nat && (n <=? 90)%nat then ascii_of_nat (n + 32) else c.

Fixpoint lower (s : string) : string :=
  match s with
  | EmptyString => EmptyString
  | String c s' => String (lowerAscii c) (lower s')
  end.

Definition isLetter (c : ascii) : bool :=
  let n := nat_of_ascii c in
  ((65 <=? n)%nat && (n <=? 90)%nat) || ((97 <=? n)%nat && (n <=? 122)%nat).

Definition isSchemeChar (c : ascii) : bool :=
  let n := nat_of_ascii c in
  isLetter c || ((48 <=? n)%nat && (n <=? 57)%nat)
  || Ascii.eqb c "+" || Ascii.eqb c "-" || Ascii.eqb c ".".

Fixpoint allSchemeChars (s : string) : bool :=
  match s with
  | EmptyString => true
  | String c s' => isSchemeChar c && allSchemeChars s'
  end.

(** The scheme that URL parsing recognizes at the head of [s], and what
    follows its colon: a letter, then letters, digits, [+], [-] and [.],
    up to the first colon.  Anything else has no scheme. *)
Definition splitScheme (s : string) : string * string :=
  match cutAt ":"%char s with
  | Some (String c more, after) =>
      if isLetter c && allSchemeChars more then (String c more, after)
      else (EmptyString, s)
  | _ => (EmptyString, s)
  end.

Definition cutOr (sep : ascii) (s : string) : string * string :=
  match cutAt sep s with
  | Some parts => parts
  | None => (s, EmptyString)
  end.

(** Modelled from the spec: [htmldoc.NewReference] is outside
    [check-link.go].  The spec (section 3, Reference) gives a reference
    its raw href and the parsed URL components (scheme, opaque part, path,
    fragment, query): its scheme is exactly the scheme recognized by URL
    parsing of the href, lower-cased, and an empty scheme with a non-empty
    path is treated as [file]. *)
Definition specReference (document : htmldoc.Document) (node : html.Node)
  (href : string) : htmldoc.Reference :=
  let '(main, fragment) := cutOr "#"%char href in
  let '(scheme0, rest0) := splitScheme main in
  let scheme := lower scheme0 in
  let '(rest, query) := cutOr "?"%char rest0 in
  let opaque :=
    if negb (String.eqb scheme "") && negb (strings.HasPrefix rest "/")
    then rest else "" in
  let '(host, urlPath) :=
    if negb (String.eqb opaque "") then ("", "")
    else if strings.HasPrefix rest "//" then
      match cutAt "/"%char (strings.drop 2 rest) with
      | Some (authority, below) => (authority, String "/"%char below)
      | None => (strings.drop 2 rest, "")
      end
    else ("", rest) in
  {| htmldoc.Document_ := document; htmldoc.Node := node;
     htmldoc.Path := href;
     htmldoc.Scheme :=
       if String.eqb scheme "" && negb (String.eqb urlPath "")
       then "file" else scheme;
     htmldoc.URL := {| url.Scheme := scheme; url.Opaque := opaque;
                       url.Host := host; url.Path := urlPath;
                       url.RawQuery := query; url.Fragment := fragment |} |}.

(** The collaborators with [NewReference] after the spec; the other three
    are those of the sample implementation. *)
Definition specAPI : htmldoc.API :=
  {| htmldoc.NewReference := specReference;
     htmldoc.URLString := @htmldoc.URLString sampleAPI;
     htmldoc.URLStripQueryString := @htmldoc.URLStripQueryString sampleAPI;
     htmldoc.AbsolutePath := @htmldoc.AbsolutePath sampleAPI |}.

(** What is said of a node whose reference has a scheme that is none of
    the five: once [CheckLink] has built the reference (the node is not
    skipped and was not turned away for a missing href), the call returns
    with the world as it was: no issue, no request, no stat, no change to
    the cache. *)
Definition skipsOtherScheme `{htmldoc.API} `{http.Texts} `{Util}
  (Opts : Options.t) (net : http.Network) (fs : os.FileSystem) (fuel : nat)
  (doc : htmldoc.Document) (node : html.Node) (w : World) : Prop :=
  let attrs := extractAttrs (html.Attr node) ["href"; "rel"; "data-proofer-ignore"] in
  let ref := htmldoc.NewReference doc node (index attrs "href") in
  index attrs "rel" <> "canonical" ->
  attrPresent (html.Attr node) "data-proofer-ignore" = false ->
  attrPresent (html.Attr node) "href" = true
  \/ (html.Data node <> "a" /\ html.Data node <> "link") ->
  htmldoc.Scheme ref ∉ ["http"; "https"; "file"; "mailto"; "tel"] ->
  CheckLink Opts net fs fuel doc node w = Some (Returned w).

(** A site with a page, a directory that has an index file, a directory
    that has none, and a directory that cannot be read. *)
Definition sampleSite : os.FileSystem :=
  {[ "site" := os.Directory;
     "site/index.html" := os.RegularFile;
     "site/docs" := os.Directory;
     "site/docs/index.html" := os.RegularFile;
     "site/empty" := os.Directory;
     "site/private" := os.Unreadable "permission denied" ]}.

(** A network on which the first request fails and every later one is
    answered with the status. *)
Definition flaky (err : string) (status : Z) : http.Network :=
  fun n _ => match n with
             | O => http.Error err
             | S _ => http.Response status
             end.

(** A configuration with external and internal checking switched off and
    HTTPS enforced. *)
Definition offOpts : Options.t :=
  {| Options.EnforceHTTPS := true;
     Options.CheckExternal := false;
     Options.CheckInternal := false;
     Options.CheckMailto := true;
     Options.CheckTel := true;
     Options.StripQueryString := false;
     Options.StripQueryExcludes := [];
     Options.DirectoryPath := "site";
     Options.DirectoryIndex := "index.html" |}.

(** * Properties *)

(** ** The models of [path] and [strings] on the cases of Go's own tests *)

Example Clean_cases :
  map path.Clean
    [""; "abc"; "abc/def"; "."; ".."; "../.."; "../../abc"; "/abc"; "/";
     "abc/"; "abc/def/"; "./"; "../"; "../../"; "/abc/";
     "abc//def//ghi"; "//abc"; "///abc"; "//abc//"; "abc//";
     "abc/./def"; "/./abc/def"; "abc/.";
     "abc/def/ghi/../jkl"; "abc/def/../ghi/../jkl"; "abc/def/..";
     "abc/def/../.."; "/abc/def/../.."; "abc/def/../../..";
     "/abc/def/../../.."; "abc/def/../../../ghi/jkl/../../../mno";
     "abc/./../def"; "abc//./../def"; "abc/../../././../def"]
  = ["."; "abc"; "abc/def"; "."; ".."; "../.."; "../../abc"; "/abc"; "/";
     "abc"; "abc/def"; "."; ".."; "../.."; "/abc";
     "abc/def/ghi"; "/abc"; "/abc"; "/abc"; "abc";
     "abc/def"; "/abc/def"; "abc";
     "abc/def/jkl"; "abc/jkl"; "abc";
     "."; "/"; "..";
     "/"; "../../mno";
     "def"; "def"; "../../def"].
Proof. reflexivity. Qed.

Example Join_cases :
  map (fun ab => path.Join (fst ab) (snd ab))
    [("a", "b"); ("a", ""); ("", "b"); ("/", "a"); ("/", ""); ("a/", "b");
     ("a/", ""); ("", ""); ("site", "/"); ("/", "index.html"); ("/", ".")]
  = ["a/b"; "a"; "b"; "/a"; "/"; "a/b"; "a"; ""; "site"; "/index.html"; "/"].
Proof. reflexivity. Qed.

Example strings_cases :
  strings.Contains "Get http://h/: dial tcp: lookup h: no such host" "dial tcp" = true
  /\ strings.Contains "net/http: request canceled (Client.Timeout exceeded)"
       "Client.Timeout" = true
  /\ strings.Contains "connection refused" "dial tcp" = false
  /\ strings.TrimPrefix "Get http://h/: dial tcp: lookup h: no such host"
       "Get http://h/: dial tcp: lookup " = "h: no such host"
  /\ strings.TrimPrefix "unexpected EOF" "Get http://h/: dial tcp: lookup "
     = "unexpected EOF"
  /\ strings.HasSuffix "docs/" "/" = true
  /\ strings.HasSuffix "docs" "/" = false
  /\ strings.HasSuffix "" "/" = false.
Proof. repeat split. Qed.

(** ** The helpers *)

Lemma index_absent (attrs : list html.Attribute) (keys : list string) (key : string) :
  attrPresent attrs key = false -> index (extractAttrs attrs keys) key = "".
Proof.
  unfold index. intros Habs.
  assert (Hnone : extractAttrs attrs keys !! key = None); [|by rewrite Hnone].
  induction attrs as [|a attrs IH]; simpl in *; [apply lookup_empty|].
  apply orb_false_iff in Habs as [Ha Hrest].
  apply String.eqb_neq in Ha.
  case_bool_decide; [rewrite lookup_insert_ne|]; auto.
Qed.

Lemma sink_AddIssue i w : sink (AddIssue i w) = (sink w ++ [i])%list.
Proof. reflexivity. Qed.

(** ** The pre-checks of [CheckLink] *)

Section Prechecks.

Context `{htmldoc.API} `{http.Texts} `{Util}.
Variable Opts : Options.t.
Variable net : http.Network.
Variable fs : os.FileSystem.

(** C1: the five pre-checks of [CheckLink] run in their order and each one
    ends the call: (1) [rel="canonical"] returns with the world as it was;
    (2) so does a [data-proofer-ignore] attribute; (3) without an href an
    [a] node adds the one DEBUG issue "anchor without href" and a [link]
    node the one ERROR issue "link tag missing href"; (4) an empty href adds
    the one ERROR issue "href blank"; (5) the href [#] adds the one ERROR
    issue "empty hash"; a node that triggers none of them is handed to the
    scheme routing.  In the cases (1) to (5) no request is sent, no path is
    stat'ed and the cache is as before. *)
Theorem CheckLink_prechecks (fuel : nat) (doc : htmldoc.Document)
  (node : html.Node) (w : World) :
  let attrs := extractAttrs (html.Attr node) ["href"; "rel"; "data-proofer-ignore"] in
  let href := index attrs "href" in
  let ref := htmldoc.NewReference doc node href in
  let canonical := String.eqb (index attrs "rel") "canonical" in
  let ignored := attrPresent (html.Attr node) "data-proofer-ignore" in
  let hasHref := attrPresent (html.Attr node) "href" in
  let tag := html.Data node in
  let result := CheckLink Opts net fs fuel doc node w in
  (canonical = true -> result = Some (Returned w))
  /\ (canonical = false -> ignored = true -> result = Some (Returned w))
  /\ (canonical = false -> ignored = false -> hasHref = false -> tag = "a" ->
      result = Some (Returned
                 (AddIssue (docIssue issues.DEBUG "anchor without href" doc) w)))
  /\ (canonical = false -> ignored = false -> hasHref = false -> tag = "link" ->
      result = Some (Returned
                 (AddIssue (docIssue issues.ERROR "link tag missing href" doc) w)))
  /\ (canonical = false -> ignored = false ->
      hasHref = true \/ (tag <> "a" /\ tag <> "link") ->
      href = "" ->
      result = Some (Returned (AddIssue (refIssue issues.ERROR "href blank" ref) w)))
  /\ (canonical = false -> ignored = false ->
      hasHref = true \/ (tag <> "a" /\ tag <> "link") ->
      href = "#" ->
      result = Some (Returned (AddIssue (refIssue issues.ERROR "empty hash" ref) w)))
  /\ (canonical = false -> ignored = false ->
      hasHref = true \/ (tag <> "a" /\ tag <> "link") ->
      href <> "" -> href <> "#" ->
      result = routeReference Opts net fs fuel ref w)
  /\ (canonical = true \/ ignored = true
      \/ (hasHref = false /\ (tag = "a" \/ tag = "link"))
      \/ href = "" \/ href = "#" ->
      exists w', result = Some (Returned w')
                 /\ (length (sink w') <= S (length (sink w)))%nat
                 /\ requests w' = requests w
                 /\ statCalls w' = statCalls w
                 /\ urlStatus w' = urlStatus w
                 /\ logLines w' = logLines w).
Proof.
  intros attrs href ref canonical ignored hasHref tag result.
  assert (Hshape : hasHref = true \/ (tag <> "a" /\ tag <> "link") ->
                   negb hasHref && String.eqb tag "a" = false
                   /\ negb hasHref && String.eqb tag "link" = false).
  { intros [-> | [Ha Hl]]; [done|].
    apply String.eqb_neq in Ha, Hl. rewrite Ha, Hl.
    by rewrite !andb_false_r. }
  subst result. unfold CheckLink.
  fold attrs. fold href. fold canonical. fold ignored. fold hasHref. fold tag.
  fold ref.
  repeat split.
  - by intros ->.
  - by intros -> ->.
  - intros -> -> -> Ht. by rewrite Ht.
  - intros -> -> -> Ht. by rewrite Ht.
  - intros -> -> Hs Hh. destruct (Hshape Hs) as [-> ->]. by rewrite Hh.
  - intros -> -> Hs Hh. destruct (Hshape Hs) as [-> ->]. by rewrite Hh.
  - intros -> -> Hs Hn1 Hn2. destruct (Hshape Hs) as [-> ->].
    apply String.eqb_neq in Hn1, Hn2. by rewrite Hn1, Hn2.
  - intros Htrig.
    assert (Hone : forall i, exists w',
               Some (Returned (AddIssue i w)) = Some (Returned w')
               /\ (length (sink w') <= S (length (sink w)))%nat
               /\ requests w' = requests w /\ statCalls w' = statCalls w
               /\ urlStatus w' = urlStatus w /\ logLines w' = logLines w).
    { intros i. eexists; split; [reflexivity|]. simpl.
      rewrite length_app. simpl. repeat split; lia. }
    assert (Hnone : exists w',
               Some (Returned w) = Some (Returned w')
               /\ (length (sink w') <= S (length (sink w)))%nat
               /\ requests w' = requests w /\ statCalls w' = statCalls w
               /\ urlStatus w' = urlStatus w /\ logLines w' = logLines w).
    { exists w. repeat split; lia. }
    destruct canonical; [done|]. destruct ignored; [done|].
    destruct (negb hasHref && String.eqb tag "a") eqn:Ea; [apply Hone|].
    destruct (negb hasHref && String.eqb tag "link") eqn:El; [apply Hone|].
    destruct (String.eqb href "") eqn:E1; [apply Hone|].
    destruct (String.eqb href "#") eqn:E2; [apply Hone|].
    exfalso. apply String.eqb_neq in E1, E2.
    destruct Htrig as [?|[?|[[Hh [Ht|Ht]]|[?|?]]]]; try done.
    + rewrite Hh, Ht in Ea. done.
    + rewrite Hh, Ht in El. done.
Qed.

End Prechecks.

(** ** [CheckExternal] *)

Section External.

Context `{htmldoc.API} `{http.Texts} `{Util}.
Variable Opts : Options.t.
Variable net : http.Network.

Lemma reportStatus_level (ref : htmldoc.Reference) (status : Z) (w : World) :
  reportStatus ref status w
  = AddIssue (refIssue (if (status =? 200) || (status =? 206)
                        then issues.DEBUG else issues.ERROR)
                       (http.StatusText status) ref) w.
Proof.
  unfold reportStatus, http.StatusOK, http.StatusPartialContent.
  destruct (status =? 200); [done|]. by destruct (status =? 206).
Qed.

(** Every path through [CheckExternal] adds one issue. *)
Lemma CheckExternal_one_issue (ref : htmldoc.Reference) (w : World) :
  exists i, sink (CheckExternal Opts net ref w) = (sink w ++ [i])%list.
Proof.
  unfold CheckExternal.
  destruct (negb (Options.CheckExternal Opts)); [by eexists|].
  destruct (negb _); [rewrite reportStatus_level; by eexists|].
  unfold Do. destruct (net _ _) as [status|err].
  - rewrite reportStatus_level. by eexists.
  - destruct (strings.Contains err "dial tcp"); [by eexists|].
    destruct (strings.Contains err "Client.Timeout"); by eexists.
Qed.

(** What [CheckExternal] does is the same whatever the sink holds. *)
Lemma CheckExternal_after_issue (ref : htmldoc.Reference) (pre : issues.Issue)
  (w : World) (i : issues.Issue) :
  sink (CheckExternal Opts net ref w) = (sink w ++ [i])%list ->
  sink (CheckExternal Opts net ref (AddIssue pre w)) = (sink w ++ [pre; i])%list
  /\ urlStatus (CheckExternal Opts net ref (AddIssue pre w))
     = urlStatus (CheckExternal Opts net ref w)
  /\ requests (CheckExternal Opts net ref (AddIssue pre w))
     = requests (CheckExternal Opts net ref w)
  /\ statCalls (CheckExternal Opts net ref (AddIssue pre w))
     = statCalls (CheckExternal Opts net ref w)
  /\ logLines (CheckExternal Opts net ref (AddIssue pre w))
     = logLines (CheckExternal Opts net ref w).
Proof.
  unfold CheckExternal.
  assert (Hsnoc : forall (l : list issues.Issue) a b c,
             (l ++ [a] = l ++ [b])%list -> ((l ++ [c]) ++ [a] = l ++ [c; b])%list).
  { intros l a b c Heq. apply app_inv_head in Heq. injection Heq as ->.
    by rewrite <- app_assoc. }
  destruct (negb (Options.CheckExternal Opts)); [simpl; auto|].
  change (refcache.CachedURLStatus (cacheKey Opts ref) (AddIssue pre w))
    with (refcache.CachedURLStatus (cacheKey Opts ref) w).
  destruct (negb _).
  { rewrite !reportStatus_level. simpl. auto. }
  unfold Do. simpl. destruct (net _ _) as [status|err].
  - rewrite !reportStatus_level. simpl. auto.
  - destruct (strings.Contains err "dial tcp"); [simpl; auto|].
    destruct (strings.Contains err "Client.Timeout"); simpl; auto.
Qed.

(** C4: a transport error of the probe gives the one ERROR issue and leaves
    the cache as it was: the message is the error text without the prefix
    "Get {urlStr}: dial tcp: lookup " when the text contains "dial tcp",
    else "request exceeded our ExternalTimeout" when it contains
    "Client.Timeout", else the error text itself. *)
Theorem CheckExternal_transport_error (ref : htmldoc.Reference) (w : World)
  (err : string) :
  Options.CheckExternal Opts = true ->
  refcache.CachedURLStatus (cacheKey Opts ref) w = 0 ->
  net (length (requests w)) (probe (cacheKey Opts ref)) = http.Error err ->
  let urlStr := cacheKey Opts ref in
  let message :=
    if strings.Contains err "dial tcp"
    then strings.TrimPrefix err ("Get " ++ urlStr ++ ": dial tcp: lookup ")
    else if strings.Contains err "Client.Timeout"
         then "request exceeded our ExternalTimeout"
         else err in
  sink (CheckExternal Opts net ref w)
  = (sink w ++ [refIssue issues.ERROR message ref])%list
  /\ urlStatus (CheckExternal Opts net ref w) = urlStatus w
  /\ requests (CheckExternal Opts net ref w) = (requests w ++ [probe urlStr])%list
  /\ statCalls (CheckExternal Opts net ref w) = statCalls w.
Proof.
  intros Hon Hmiss Herr urlStr message. subst message urlStr.
  unfold CheckExternal, Do. rewrite Hon, Hmiss, Herr. simpl.
  destruct (strings.Contains err "dial tcp"); [done|].
  by destruct (strings.Contains err "Client.Timeout").
Qed.

(** C5: whatever status code [CheckExternal] obtains, from the cache or
    from a response, it reports once: DEBUG with the status text for 200
    and 206, ERROR with the status text for any other code; a cached status
    sends nothing and a fresh one is the answer to the single request. *)
Theorem CheckExternal_classifies (ref : htmldoc.Reference) (w : World)
  (status : Z) :
  Options.CheckExternal Opts = true ->
  let urlStr := cacheKey Opts ref in
  let cached := refcache.CachedURLStatus urlStr w in
  (cached = status /\ status <> 0)
  \/ (cached = 0
      /\ net (length (requests w)) (probe urlStr) = http.Response status) ->
  let level := if (status =? 200) || (status =? 206)
               then issues.DEBUG else issues.ERROR in
  sink (CheckExternal Opts net ref w)
  = (sink w ++ [refIssue level (http.StatusText status) ref])%list
  /\ requests (CheckExternal Opts net ref w)
     = (if cached =? 0 then requests w ++ [probe urlStr] else requests w)%list.
Proof.
  intros Hon urlStr cached Hobtained level. subst level.
  unfold CheckExternal, Do. rewrite Hon. simpl. fold urlStr. fold cached.
  destruct Hobtained as [[Hc Hnz] | [Hc Hresp]].
  - apply Z.eqb_neq in Hnz. rewrite Hc, Hnz. simpl.
    by rewrite reportStatus_level.
  - rewrite Hc, Hresp. simpl. by rewrite reportStatus_level.
Qed.

End External.

(** ** The scheme routing of [CheckLink] *)

Section Routing.

Context `{htmldoc.API} `{http.Texts} `{Util}.
Variable Opts : Options.t.
Variable net : http.Network.
Variable fs : os.FileSystem.

(** A node whose href is neither empty nor [#], and which is not skipped,
    is routed on the scheme of its reference. *)
Lemma CheckLink_routes (fuel : nat) (doc : htmldoc.Document) (node : html.Node)
  (w : World) :
  let attrs := extractAttrs (html.Attr node) ["href"; "rel"; "data-proofer-ignore"] in
  index attrs "rel" <> "canonical" ->
  attrPresent (html.Attr node) "data-proofer-ignore" = false ->
  index attrs "href" <> "" ->
  index attrs "href" <> "#" ->
  CheckLink Opts net fs fuel doc node w
  = routeReference Opts net fs fuel
      (htmldoc.NewReference doc node (index attrs "href")) w.
Proof.
  intros attrs Hrel Hign Hblank Hhash.
  assert (Hpresent : attrPresent (html.Attr node) "href" = true).
  { destruct (attrPresent (html.Attr node) "href") eqn:E; [done|].
    exfalso. apply Hblank. by apply index_absent. }
  unfold CheckLink. fold attrs.
  apply String.eqb_neq in Hrel, Hblank, Hhash.
  by rewrite Hrel, Hign, Hpresent, Hblank, Hhash.
Qed.

(** C2: a reference of scheme [http] that reaches the routing while
    [EnforceHTTPS] is set gets two issues, in this order: the ERROR issue
    "is not an HTTPS target", then the one issue of [CheckExternal], the
    check a reference of scheme [https] is given; cache, requests and log
    end as [CheckExternal] alone leaves them. *)
Theorem CheckLink_http_enforced (fuel : nat) (doc : htmldoc.Document)
  (node : html.Node) (w : World) :
  let attrs := extractAttrs (html.Attr node) ["href"; "rel"; "data-proofer-ignore"] in
  let ref := htmldoc.NewReference doc node (index attrs "href") in
  let enforced := refIssue issues.ERROR "is not an HTTPS target" ref in
  index attrs "rel" <> "canonical" ->
  attrPresent (html.Attr node) "data-proofer-ignore" = false ->
  index attrs "href" <> "" ->
  index attrs "href" <> "#" ->
  htmldoc.Scheme ref = "http" ->
  Options.EnforceHTTPS Opts = true ->
  exists (probed : issues.Issue) (w' : World),
    CheckLink Opts net fs fuel doc node w = Some (Returned w')
    /\ sink (CheckExternal Opts net ref w) = (sink w ++ [probed])%list
    /\ sink w' = (sink w ++ [enforced; probed])%list
    /\ urlStatus w' = urlStatus (CheckExternal Opts net ref w)
    /\ requests w' = requests (CheckExternal Opts net ref w)
    /\ (forall (ref' : htmldoc.Reference) (v : World),
          htmldoc.Scheme ref' = "https" ->
          routeReference Opts net fs fuel ref' v
          = Some (Returned (CheckExternal Opts net ref' v))).
Proof.
  intros attrs ref enforced Hrel Hign Hblank Hhash Hscheme Henf.
  destruct (CheckExternal_one_issue Opts net ref w) as [probed Hprobed].
  destruct (CheckExternal_after_issue Opts net ref enforced w probed Hprobed)
    as (Hsink & Hcache & Hreq & _ & _).
  exists probed, (CheckExternal Opts net ref (AddIssue enforced w)).
  split; [|repeat split; auto].
  - rewrite (CheckLink_routes fuel doc node w Hrel Hign Hblank Hhash).
    fold attrs. fold ref. unfold routeReference. by rewrite Hscheme, Henf.
  - intros ref' v Hs. unfold routeReference. by rewrite Hs.
Qed.

(** C8, for an href that is neither empty nor [#]: a reference with a
    scheme other than [http], [https], [file], [mailto] and [tel] is
    skipped: [CheckLink] returns with the world as it was, so there is no
    issue, no request, no stat and no change to the cache.  (An empty href
    and the href [#] are reported before the scheme is looked at.) *)
Theorem CheckLink_other_scheme (fuel : nat) (doc : htmldoc.Document)
  (node : html.Node) (w : World) :
  let attrs := extractAttrs (html.Attr node) ["href"; "rel"; "data-proofer-ignore"] in
  index attrs "href" <> "" ->
  index attrs "href" <> "#" ->
  skipsOtherScheme Opts net fs fuel doc node w.
Proof.
  intros attrs Hblank Hhash Hrel Hign _ Hscheme. cbv zeta in Hscheme.
  rewrite (CheckLink_routes fuel doc node w Hrel Hign Hblank Hhash).
  cbv zeta. fold attrs in Hscheme |- *.
  set (ref := htmldoc.NewReference doc node (index attrs "href")) in *.
  unfold routeReference.
  assert (Hne : forall s, s ∈ ["http"; "https"; "file"; "mailto"; "tel"] ->
                String.eqb (htmldoc.Scheme ref) s = false).
  { intros s Hs. apply String.eqb_neq. intros Heq. apply Hscheme.
    by rewrite Heq. }
  rewrite (Hne "http"), (Hne "https"), (Hne "file"), (Hne "mailto"), (Hne "tel");
    first done; repeat constructor.
Qed.


End Routing.

(** ** [CheckFile] *)

Section Files.

Context `{htmldoc.API}.
Variable Opts : Options.t.
Variable fs : os.FileSystem.

(** C6: [CheckFile] stats the target under the document root.  A path that
    does not exist gives the one ERROR issue "target does not exist" and
    the call returns; a directory reached from a reference whose path lacks
    the trailing slash gives the one ERROR issue "target is a directory,
    href lacks trailing slash" and the call returns; a directory reached
    with the trailing slash gives the DEBUG issue "target is a directory"
    and the call goes on as [CheckFile] of the directory's index file; a
    regular file gives no issue. *)
Theorem CheckFile_cases (fuel : nat) (ref : htmldoc.Reference) (fPath : string)
  (w : World) :
  let checkPath := path.Join (Options.DirectoryPath Opts) fPath in
  let w1 := stated checkPath w in
  (fs !! checkPath = None ->
   CheckFile Opts fs (S fuel) ref fPath w
   = Some (Returned (AddIssue (refIssue issues.ERROR "target does not exist" ref) w1)))
  /\ (fs !! checkPath = Some os.Directory ->
      strings.HasSuffix (htmldoc.Path ref) "/" = false ->
      CheckFile Opts fs (S fuel) ref fPath w
      = Some (Returned
                (AddIssue (refIssue issues.ERROR
                             "target is a directory, href lacks trailing slash" ref)
                          w1)))
  /\ (fs !! checkPath = Some os.Directory ->
      strings.HasSuffix (htmldoc.Path ref) "/" = true ->
      CheckFile Opts fs (S fuel) ref fPath w
      = CheckFile Opts fs fuel ref
          (path.Join fPath (Options.DirectoryIndex Opts))
          (AddIssue (refIssue issues.DEBUG "target is a directory" ref) w1))
  /\ (fs !! checkPath = Some os.RegularFile ->
      CheckFile Opts fs (S fuel) ref fPath w = Some (Returned w1)).
Proof.
  intros checkPath w1. simpl. fold checkPath. unfold os.Stat.
  repeat split; intros Hfs; rewrite Hfs; try done.
  - by intros ->.
  - by intros ->.
Qed.

(** C7: a stat error other than non-existence aborts: [CheckFile] ends the
    run with that error and adds no issue, and so does [CheckInternal]
    calling it; non-existence alone is reported as an ERROR issue by a call
    that returns. *)
Theorem CheckFile_stat_errors (fuel : nat) (ref : htmldoc.Reference)
  (fPath : string) (w : World) :
  let checkPath := path.Join (Options.DirectoryPath Opts) fPath in
  let w1 := stated checkPath w in
  (forall err : string,
     os.Stat fs checkPath = os.ErrOther err ->
     CheckFile Opts fs (S fuel) ref fPath w = Some (Aborted err w1)
     /\ sink w1 = sink w
     /\ (Options.CheckInternal Opts = true ->
         htmldoc.AbsolutePath ref = fPath ->
         CheckInternal Opts fs (S fuel) ref w = Some (Aborted err w1)))
  /\ (os.Stat fs checkPath = os.ErrNotExist ->
      CheckFile Opts fs (S fuel) ref fPath w
      = Some (Returned (AddIssue (refIssue issues.ERROR "target does not exist" ref) w1)))
  /\ (forall (err : string) (w' : World),
        CheckFile Opts fs 1 ref fPath w = Some (Aborted err w') ->
        os.Stat fs checkPath = os.ErrOther err).
Proof.
  intros checkPath w1. split; [intros err Hstat; repeat split|split].
  - simpl. fold checkPath. by rewrite Hstat.
  - intros Hon Hpath. unfold CheckInternal. rewrite Hon, Hpath. simpl.
    fold checkPath. by rewrite Hstat.
  - intros Hstat. simpl. fold checkPath. by rewrite Hstat.
  - intros err w'. simpl. fold checkPath.
    destruct (os.Stat fs checkPath) as [[|]| |e]; try done.
    + by destruct (negb _).
    + unfold checkErr. by intros [= -> _].
Qed.

End Files.

(** ** The result cache over a run *)

Section Cache.

Context `{htmldoc.API} `{http.Texts} `{Util}.
Variable Opts : Options.t.
Variable net : http.Network.
Variable fs : os.FileSystem.

(** A status that is cached and not 0 is never overwritten. *)
Lemma CheckExternal_keeps (ref : htmldoc.Reference) (urlStr : string)
  (status : Z) (w : World) :
  status <> 0 -> holds urlStr status w ->
  holds urlStr status (CheckExternal Opts net ref w).
Proof.
  unfold holds. intros Hnz Hw. unfold CheckExternal.
  destruct (negb (Options.CheckExternal Opts)); [done|].
  destruct (refcache.CachedURLStatus (cacheKey Opts ref) w =? 0) eqn:Emiss; simpl.
  - apply Z.eqb_eq in Emiss.
    assert (Hne : cacheKey Opts ref <> urlStr) by (intros Heq; congruence).
    unfold Do. destruct (net _ _) as [st|err].
    + rewrite reportStatus_level. unfold refcache.CachedURLStatus in *. simpl.
      by rewrite lookup_insert_ne.
    + destruct (strings.Contains err "dial tcp"); [done|].
      by destruct (strings.Contains err "Client.Timeout").
  - by rewrite reportStatus_level.
Qed.

Lemma CheckFile_cache (fuel : nat) (ref : htmldoc.Reference) (fPath : string)
  (w w' : World) :
  CheckFile Opts fs fuel ref fPath w = Some (Returned w') ->
  urlStatus w' = urlStatus w.
Proof.
  revert fPath w. induction fuel as [|fuel IH]; intros fPath w; [done|].
  simpl. destruct (os.Stat fs _) as [[|]| |e].
  - destruct (negb _); [by intros [= <-]|].
    intros Hrec. by rewrite (IH _ _ Hrec).
  - by intros [= <-].
  - by intros [= <-].
  - done.
Qed.

Lemma CheckLink_keeps (fuel : nat) (doc : htmldoc.Document) (node : html.Node)
  (urlStr : string) (status : Z) (w w' : World) :
  status <> 0 -> holds urlStr status w ->
  CheckLink Opts net fs fuel doc node w = Some (Returned w') ->
  holds urlStr status w'.
Proof.
  intros Hnz Hw. unfold CheckLink.
  repeat (match goal with
          | |- context [if ?b then _ else _] => destruct b
          end; [by intros [= <-]|]).
  unfold routeReference.
  set (ref := htmldoc.NewReference doc node _).
  destruct (String.eqb (htmldoc.Scheme ref) "http").
  { intros [= <-]. apply CheckExternal_keeps; [done|].
    by destruct (Options.EnforceHTTPS Opts). }
  destruct (String.eqb (htmldoc.Scheme ref) "https").
  { intros [= <-]. by apply CheckExternal_keeps. }
  destruct (String.eqb (htmldoc.Scheme ref) "file").
  { unfold CheckInternal. destruct (negb _); [by intros [= <-]|].
    intros Hfile. unfold holds, refcache.CachedURLStatus in *.
    by rewrite (CheckFile_cache _ _ _ _ _ Hfile). }
  destruct (String.eqb (htmldoc.Scheme ref) "mailto").
  { intros [= <-]. unfold CheckMailto.
    repeat (match goal with
            | |- context [if ?b then _ else _] => destruct b
            end; [done|]). done. }
  destruct (String.eqb (htmldoc.Scheme ref) "tel").
  { intros [= <-]. unfold CheckTel.
    repeat (match goal with
            | |- context [if ?b then _ else _] => destruct b
            end; [done|]). done. }
  by intros [= <-].
Qed.

Lemma later_keeps (urlStr : string) (status : Z) (w w' : World) :
  status <> 0 -> holds urlStr status w ->
  later Opts net fs w w' -> holds urlStr status w'.
Proof.
  intros Hnz Hw Hlater.
  induction Hlater as [|w w1 w2 fuel doc node Hlater IH Hcheck]; [done|].
  apply (CheckLink_keeps fuel doc node urlStr status w1 w2 Hnz (IH Hw) Hcheck).
Qed.

(** C3, for a status other than 0: cache idempotence.  When the
    first external check of a URL is answered with a status that is not 0,
    every external check of the same normalized URL later in the run sends
    no request, reads the cached status, leaves the cache as it is and
    reports the level and the status text that the first check reported. *)
Theorem CheckExternal_reuses_status (ref1 ref2 : htmldoc.Reference)
  (w0 : World) (status : Z) :
  status <> 0 -> reusesStatus Opts net fs ref1 ref2 w0 status.
Proof.
  intros Hnz Hon Hkey Hmiss Hresp w Hlater.
  set (level := if (status =? 200) || (status =? 206)
                then issues.DEBUG else issues.ERROR).
  assert (Hfirst : CheckExternal Opts net ref1 w0
                   = AddIssue (refIssue level (http.StatusText status) ref1)
                       (refcache.SetCachedURLStatus (cacheKey Opts ref1) status
                          (snd (Do net (probe (cacheKey Opts ref1)) w0)))).
  { unfold CheckExternal, Do. rewrite Hon, Hmiss, Hresp. simpl.
    by rewrite reportStatus_level. }
  assert (Hcached : holds (cacheKey Opts ref1) status w).
  { eapply later_keeps; [done| |exact Hlater].
    rewrite Hfirst. unfold holds, refcache.CachedURLStatus. simpl.
    by rewrite lookup_insert_eq. }
  assert (Hsecond : CheckExternal Opts net ref2 w
                    = AddIssue (refIssue level (http.StatusText status) ref2) w).
  { unfold CheckExternal. rewrite Hon, Hkey. simpl.
    unfold holds in Hcached. rewrite Hcached.
    apply Z.eqb_neq in Hnz. rewrite Hnz. simpl.
    by rewrite reportStatus_level. }
  rewrite Hsecond. repeat split.
  exists level, (http.StatusText status). by rewrite Hfirst.
Qed.

End Cache.

(** C3 on a concrete run: two references that differ in the query string only,
    on a network that answers 404. *)
Lemma CheckExternal_reuses_status_witness :
  404 <> 0
  /\ @reusesStatus sampleAPI sampleTexts sampleUtil sampleOpts (always 404) ∅
       (sampleRef "https://example.com/page?a=1")
       (sampleRef "https://example.com/page?b=2") emptyWorld 404.
Proof.
  split; [lia|].
  apply (@CheckExternal_reuses_status sampleAPI sampleTexts sampleUtil
           sampleOpts (always 404) ∅). lia.
Defined.

(** C3 does not extend to the status 0: the response is stored as 0,
    which the lookup reads as "no status", and the next check of the same
    URL sends a request again. *)
Lemma CheckExternal_status_zero_not_reused :
  ~ @reusesStatus sampleAPI sampleTexts sampleUtil sampleOpts (always 0) ∅
      (sampleRef "https://example.com/page")
      (sampleRef "https://example.com/page") emptyWorld 0.
Proof.
  intros Hreuse.
  destruct (Hreuse eq_refl eq_refl eq_refl eq_refl _ (later_now _ _ _ _))
    as [Hrequests _].
  vm_compute in Hrequests. discriminate Hrequests.
Qed.

(** ** The theorems on concrete inputs *)

(** C2 on a concrete node: [<a href="http://example.com/">] with [EnforceHTTPS]
    set, on a network that answers 200. *)
Lemma CheckLink_http_enforced_witness :
  exists (probed : issues.Issue) (w' : World),
    let ref := sampleRef "http://example.com/" in
    @CheckLink sampleAPI sampleTexts sampleUtil sampleOpts (always 200) ∅ 0
       sampleDoc (sampleLink "http://example.com/") emptyWorld
    = Some (Returned w')
    /\ probed = refIssue issues.DEBUG "OK" ref
    /\ sink w' = [refIssue issues.ERROR "is not an HTTPS target" ref; probed].
Proof.
  destruct (@CheckLink_http_enforced sampleAPI sampleTexts sampleUtil
              sampleOpts (always 200) ∅ 0 sampleDoc
              (sampleLink "http://example.com/") emptyWorld)
    as (probed & w' & Hlink & Hprobed & Hsink & _);
    [by vm_compute | reflexivity | by vm_compute | by vm_compute
    | reflexivity | reflexivity |].
  exists probed, w'. split; [exact Hlink|].
  vm_compute in Hprobed. injection Hprobed as <-.
  split; [reflexivity | exact Hsink].
Defined.

(** C4 on a concrete error: a name that does not resolve. *)
Lemma CheckExternal_transport_error_witness :
  let ref := sampleRef "http://nowhere.invalid/" in
  let w := @CheckExternal sampleAPI sampleTexts sampleUtil sampleOpts
             (failing "Get http://nowhere.invalid/: dial tcp: lookup nowhere.invalid: no such host")
             ref emptyWorld in
  sink w = [refIssue issues.ERROR "nowhere.invalid: no such host" ref]
  /\ urlStatus w = ∅
  /\ requests w = [probe "http://nowhere.invalid/"]
  /\ statCalls w = [].
Proof.
  exact (@CheckExternal_transport_error sampleAPI sampleTexts sampleUtil
           sampleOpts
           (failing "Get http://nowhere.invalid/: dial tcp: lookup nowhere.invalid: no such host")
           (sampleRef "http://nowhere.invalid/") emptyWorld
           "Get http://nowhere.invalid/: dial tcp: lookup nowhere.invalid: no such host"
           eq_refl eq_refl eq_refl).
Defined.

(** C5 on a concrete response: a fresh 404. *)
Lemma CheckExternal_classifies_witness :
  let ref := sampleRef "https://example.com/page" in
  let w := @CheckExternal sampleAPI sampleTexts sampleUtil sampleOpts
             (always 404) ref emptyWorld in
  sink w = [refIssue issues.ERROR "Not Found" ref]
  /\ requests w = [probe "https://example.com/page"].
Proof.
  exact (@CheckExternal_classifies sampleAPI sampleTexts sampleUtil
           sampleOpts (always 404) (sampleRef "https://example.com/page")
           emptyWorld 404 eq_refl (or_intror (conj eq_refl eq_refl))).
Defined.

(** C8 on a concrete node: [<a href="ftp://example.com/file">]. *)
Lemma CheckLink_other_scheme_witness :
  @CheckLink sampleAPI sampleTexts sampleUtil sampleOpts (always 200) ∅ 0
     sampleDoc (sampleLink "ftp://example.com/file") emptyWorld
  = Some (Returned emptyWorld).
Proof.
  apply (@CheckLink_other_scheme sampleAPI sampleTexts sampleUtil
           sampleOpts (always 200) ∅ 0 sampleDoc
           (sampleLink "ftp://example.com/file") emptyWorld);
    try (by vm_compute); try reflexivity.
  - left. reflexivity.
  - vm_compute. intros Hin.
    repeat (apply elem_of_cons in Hin as [Heq | Hin]; [discriminate Heq|]).
    by apply elem_of_nil in Hin.
Defined.

(** C8 does not extend to the href [#]: URL parsing finds no scheme in it
    and no path, so the reference has the empty scheme, which is none of
    the five, and [CheckLink] still reports "empty hash" on it. *)
Lemma CheckLink_hash_reported_whatever_scheme :
  htmldoc.Scheme (specReference sampleDoc (sampleLink "#") "#") = ""
  /\ @CheckLink specAPI sampleTexts sampleUtil sampleOpts (always 200) ∅ 0
       sampleDoc (sampleLink "#") emptyWorld
     = Some (Returned
               (AddIssue (refIssue issues.ERROR "empty hash"
                            (specReference sampleDoc (sampleLink "#") "#"))
                  emptyWorld))
  /\ ~ @skipsOtherScheme specAPI sampleTexts sampleUtil sampleOpts (always 200) ∅
        0 sampleDoc (sampleLink "#") emptyWorld.
Proof.
  split; [reflexivity|]. split; [reflexivity|].
  intros Hskip.
  assert (Hnone : @CheckLink specAPI sampleTexts sampleUtil sampleOpts
                    (always 200) ∅ 0 sampleDoc (sampleLink "#") emptyWorld
                  = Some (Returned emptyWorld)).
  { apply Hskip.
    - by vm_compute.
    - reflexivity.
    - left. reflexivity.
    - vm_compute. intros Hin.
      repeat (apply elem_of_cons in Hin as [Heq | Hin]; [discriminate Heq|]).
      by apply elem_of_nil in Hin. }
  apply (f_equal (fun o => match o with
                           | Some (Returned v) => length (sink v)
                           | _ => 0%nat
                           end)) in Hnone.
  vm_compute in Hnone. discriminate Hnone.
Qed.


(** ** Facts about [path.Clean] and [path.Join] *)

Section PathFacts.

Implicit Types (p e : string) (es : list string) (b : path.buf) (r : bool).

Lemma elements_nonempty p : path.elements p <> [].
Proof.
  destruct p as [|c p]; simpl; [done|].
  destruct (Ascii.eqb c path.slash); [done|]. by destruct (path.elements p).
Qed.

Lemma elements_app_slash p q :
  path.elements (p ++ String path.slash q) = (path.elements p ++ path.elements q)%list.
Proof.
  induction p as [|c p IH]; simpl.
  - done.
  - destruct (Ascii.eqb c path.slash); [by rewrite IH|].
    rewrite IH. pose proof (elements_nonempty p) as Hne.
    by destruct (path.elements p).
Qed.

Lemma elements_noSlash e : noSlash e = true -> path.elements e = [e].
Proof.
  induction e as [|c e IH]; simpl; [done|].
  intros [Hc He]%andb_true_iff. apply negb_true_iff in Hc.
  by rewrite Hc, (IH He).
Qed.

Lemma elements_all_noSlash p : Forall (fun e => noSlash e = true) (path.elements p).
Proof.
  induction p as [|c p IH]; simpl; [by repeat constructor|].
  destruct (Ascii.eqb c path.slash) eqn:Ec; [by constructor|].
  destruct (path.elements p) as [|e es].
  { constructor; [simpl; by rewrite Ec | constructor]. }
  inversion IH as [|? ? He Hes]; subst. constructor; [|done].
  simpl. by rewrite Ec.
Qed.

Lemma elements_joinElements es :
  es <> [] -> Forall (fun e => noSlash e = true) es ->
  path.elements (path.joinElements es) = es.
Proof.
  induction es as [|e es IH]; [done|]. intros _ Hall.
  inversion Hall as [|? ? He Hes]; subst.
  destruct es as [|e' es]; simpl.
  - by apply elements_noSlash.
  - change (path.elements (e ++ String path.slash (path.joinElements (e' :: es)))
            = e :: e' :: es).
    rewrite elements_app_slash, (elements_noSlash e He), IH; done.
Qed.

Lemma length_append p q :
  String.length (p ++ q) = (String.length p + String.length q)%nat.
Proof. induction p as [|c p IH]; simpl; [done|]. by rewrite IH. Qed.

Lemma joinElements_length es :
  Forall (fun e => e <> "") es ->
  (length es <= String.length (path.joinElements es))%nat.
Proof.
  induction es as [|e es IH]; simpl; [lia|]. intros Hall.
  inversion Hall as [|? ? He Hes]; subst. specialize (IH Hes).
  assert (1 <= String.length e)%nat by (destruct e; simpl; [done|lia]).
  destruct es as [|e' es]; [simpl; lia|].
  change (path.joinElements (e :: e' :: es))
    with (e ++ "/" ++ path.joinElements (e' :: es)).
  rewrite !length_append. change (String.length "/") with 1%nat. lia.
Qed.

Lemma rooted_app p q : p <> "" -> path.rooted (p ++ q) = path.rooted p.
Proof. by destruct p. Qed.

Lemma properName_noSlash e : properName e = true -> noSlash e = true.
Proof. unfold properName. by intros [_ ?]%andb_true_iff. Qed.

Lemma properName_nonempty e : properName e = true -> e <> "".
Proof. by destruct e. Qed.

Lemma properName_unrooted e : properName e = true -> path.rooted e = false.
Proof.
  intros He. pose proof (properName_noSlash e He) as Hs.
  destruct e as [|c e]; [done|]. simpl in *.
  apply andb_true_iff in Hs as [Hc _]. by apply negb_true_iff in Hc.
Qed.

(** A real element is pushed. *)
Lemma step_proper r b e :
  properName e = true -> path.step r b e = path.Buf (path.ups b) (e :: path.stack b).
Proof.
  unfold properName, path.step.
  intros [[[H1 H2]%andb_true_iff H3]%andb_true_iff _]%andb_true_iff.
  apply negb_true_iff in H1, H2, H3. by rewrite H1, H2, H3.
Qed.

Lemma run_proper r b es :
  Forall (fun e => properName e = true) es ->
  path.run r b es = path.Buf (path.ups b) (rev es ++ path.stack b).
Proof.
  revert b. induction es as [|e es IH]; intros b Hall; simpl.
  - by destruct b.
  - inversion Hall as [|? ? He Hes]; subst.
    unfold path.run in *. rewrite (step_proper r b e He), (IH _ Hes). simpl.
    by rewrite <- app_assoc.
Qed.

Lemma step_tidy r b e : noSlash e = true -> tidy r b -> tidy r (path.step r b e).
Proof.
  intros He Hb. pose proof Hb as [Hst Hups]. unfold path.step.
  destruct (String.eqb e "") eqn:E1; [exact Hb|].
  destruct (String.eqb e ".") eqn:E2; [exact Hb|].
  destruct (String.eqb e "..") eqn:E3.
  - destruct (path.stack b) as [|top below] eqn:Es.
    + destruct r; [exact Hb|]. split; [by constructor|done].
    + split; [|done]. simpl. by inversion Hst.
  - split; [|done]. simpl. constructor; [|done].
    unfold properName. by rewrite E1, E2, E3, He.
Qed.

Lemma run_tidy r b es :
  Forall (fun e => noSlash e = true) es -> tidy r b -> tidy r (path.run r b es).
Proof.
  revert b. induction es as [|e es IH]; intros b Hall Hb; [done|].
  inversion Hall as [|? ? He Hes]; subst.
  apply (IH _ Hes). by apply step_tidy.
Qed.

Lemma run_app r b es1 es2 :
  path.run r b (es1 ++ es2) = path.run r (path.run r b es1) es2.
Proof. apply fold_left_app. Qed.

Lemma run_ups b n :
  path.stack b = [] ->
  path.run false b (repeat ".." n) = path.Buf (path.ups b + n) [].
Proof.
  revert b. induction n as [|n IH]; intros [u s] Hs; simpl in *; subst.
  - f_equal. lia.
  - unfold path.run in *. rewrite IH; [|done]. simpl. f_equal. lia.
Qed.

Lemma Forall_dots (P : string -> Prop) (n : nat) :
  P ".." -> Forall P (repeat ".." n).
Proof. intros Hp. induction n; simpl; by constructor. Qed.

Lemma tidy_start r : tidy r (path.Buf 0 []).
Proof. by split. Qed.

Lemma rooted_noSlash e : noSlash e = true -> path.rooted e = false.
Proof.
  destruct e as [|c e]; [done|]. simpl.
  intros [Hc _]%andb_true_iff. by apply negb_true_iff in Hc.
Qed.

Lemma eqb_nonempty p : p <> "" -> String.eqb p "" = false.
Proof. by intros ?%String.eqb_neq. Qed.

Lemma rendered_facts r b :
  tidy r b -> (1 <= length (path.stack b))%nat ->
  rendered b <> []
  /\ Forall (fun e => noSlash e = true) (rendered b)
  /\ Forall (fun e => e <> "") (rendered b)
  /\ path.joinElements (rendered b) <> ""
  /\ path.rooted (path.joinElements (rendered b)) = false.
Proof.
  intros [Hst _] Hlen. unfold rendered.
  assert (Hne : (repeat ".." (path.ups b) ++ rev (path.stack b))%list <> []).
  { intros Heq. apply (f_equal (@length string)) in Heq.
    rewrite length_app, length_rev in Heq. simpl in Heq. lia. }
  assert (Hdots : forall n, Forall (fun e => noSlash e = true /\ e <> "") (repeat ".." n)).
  { intros n. by apply Forall_dots. }
  assert (Hall : Forall (fun e => noSlash e = true /\ e <> "")
                   (repeat ".." (path.ups b) ++ rev (path.stack b))%list).
  { apply Forall_app. split; [apply Hdots|]. apply Forall_rev.
    eapply Forall_impl; [exact Hst|]. intros e He. split.
    - by apply properName_noSlash.
    - by apply properName_nonempty. }
  assert (Hs : Forall (fun e => noSlash e = true)
                 (repeat ".." (path.ups b) ++ rev (path.stack b))%list).
  { eapply Forall_impl; [exact Hall|]. by intros e [? _]. }
  assert (Hn : Forall (fun e => e <> "")
                 (repeat ".." (path.ups b) ++ rev (path.stack b))%list).
  { eapply Forall_impl; [exact Hall|]. by intros e [_ ?]. }
  repeat split; try done.
  - intros Heq. pose proof (joinElements_length _ Hn) as Hl.
    rewrite Heq in Hl. simpl in Hl.
    destruct (repeat ".." (path.ups b) ++ rev (path.stack b))%list; [done|].
    simpl in Hl. lia.
  - destruct (repeat ".." (path.ups b) ++ rev (path.stack b))%list
      as [|e es] eqn:Ees; [done|].
    inversion Hall as [|? ? [He1 He2] _]; subst.
    destruct es as [|e' es]; simpl.
    + by apply rooted_noSlash.
    + change (path.rooted (e ++ "/" ++ path.joinElements (e' :: es)) = false).
      rewrite rooted_app; [|done]. by apply rooted_noSlash.
Qed.

Lemma render_nonempty r b :
  tidy r b -> (1 <= length (path.stack b))%nat -> path.render r b <> "".
Proof.
  intros Hb Hlen. destruct (rendered_facts r b Hb Hlen) as (_ & _ & _ & Hbody & _).
  unfold path.render. fold (rendered b). destruct r; [done|].
  by rewrite (eqb_nonempty _ Hbody).
Qed.

Lemma render_rooted r b :
  tidy r b -> (1 <= length (path.stack b))%nat -> path.rooted (path.render r b) = r.
Proof.
  intros Hb Hlen. destruct (rendered_facts r b Hb Hlen) as (_ & _ & _ & Hbody & Hroot).
  unfold path.render. fold (rendered b). destruct r; [done|].
  by rewrite (eqb_nonempty _ Hbody).
Qed.

Lemma render_elements r b :
  tidy r b -> (1 <= length (path.stack b))%nat ->
  path.elements (path.render r b)
  = ((if r then [""] else []) ++ rendered b)%list.
Proof.
  intros Hb Hlen.
  destruct (rendered_facts r b Hb Hlen) as (Hne & Hs & _ & Hbody & _).
  unfold path.render. fold (rendered b). destruct r.
  - change ("/" ++ path.joinElements (rendered b))
      with ("" ++ String path.slash (path.joinElements (rendered b))).
    rewrite elements_app_slash. simpl. by rewrite elements_joinElements.
  - rewrite (eqb_nonempty _ Hbody). simpl. by apply elements_joinElements.
Qed.

Lemma render_length r b :
  Forall (fun e => properName e = true) (path.stack b) ->
  (length (path.stack b) <= String.length (path.render r b))%nat.
Proof.
  intros Hst.
  assert (Hn : Forall (fun e => e <> "") (rendered b)).
  { apply Forall_app. split.
    - by apply Forall_dots.
    - apply Forall_rev. eapply Forall_impl; [exact Hst|].
      intros e He. by apply properName_nonempty. }
  pose proof (joinElements_length _ Hn) as Hl.
  unfold rendered in Hl at 1. rewrite length_app, length_rev in Hl.
  unfold path.render. fold (rendered b). destruct r.
  - rewrite length_append. simpl. lia.
  - destruct (String.eqb_spec (path.joinElements (rendered b)) "") as [Heq|_];
      [|lia].
    rewrite Heq in Hl. simpl in *. lia.
Qed.

(** Running [Clean] over a rendered path, from any tidy buffer, backtracks
    first and then pushes the real elements of the path. *)
Lemma run_rendered r' B r b :
  tidy r b -> (1 <= length (path.stack b))%nat -> tidy r' B ->
  exists B', tidy r' B'
    /\ path.run r' B (path.elements (path.render r b))
       = path.Buf (path.ups B') (path.stack b ++ path.stack B').
Proof.
  intros Hb Hlen HB. rewrite (render_elements r b Hb Hlen).
  unfold rendered. rewrite !run_app.
  assert (Hpre : path.run r' B (if r then [""] else []) = B) by (by destruct r).
  rewrite Hpre.
  set (B1 := path.run r' B (repeat ".." (path.ups b))).
  assert (HB1 : tidy r' B1).
  { apply run_tidy; [|done]. by apply Forall_dots. }
  exists B1. split; [done|].
  destruct Hb as [Hst _].
  rewrite run_proper; [|by apply Forall_rev]. by rewrite rev_involutive.
Qed.

(** [Clean] leaves a rendered path as it is. *)
Lemma run_rendered_self r b :
  tidy r b -> (1 <= length (path.stack b))%nat ->
  path.run r (path.Buf 0 []) (path.elements (path.render r b)) = b.
Proof.
  intros Hb Hlen. rewrite (render_elements r b Hb Hlen).
  unfold rendered. rewrite !run_app.
  assert (Hpre : path.run r (path.Buf 0 []) (if r then [""] else [])
                 = path.Buf 0 []) by (by destruct r).
  rewrite Hpre. destruct Hb as [Hst Hups].
  assert (Hdots : path.run r (path.Buf 0 []) (repeat ".." (path.ups b))
                  = path.Buf (path.ups b) []).
  { destruct r; [by rewrite Hups|]. by rewrite run_ups. }
  rewrite Hdots, run_proper; [|by apply Forall_rev].
  rewrite rev_involutive, app_nil_r. by destruct b.
Qed.

Lemma Clean_app_name p idx :
  p <> "" -> properName idx = true ->
  path.Clean (p ++ "/" ++ idx)
  = path.render (path.rooted p)
      (path.step (path.rooted p)
         (path.run (path.rooted p) (path.Buf 0 []) (path.elements p)) idx).
Proof.
  intros Hp Hidx. unfold path.Clean.
  assert (Hne : p ++ "/" ++ idx <> "") by (by destruct p).
  rewrite (eqb_nonempty _ Hne), (rooted_app p _ Hp).
  change (p ++ "/" ++ idx) with (p ++ String path.slash idx).
  rewrite elements_app_slash, (elements_noSlash idx (properName_noSlash _ Hidx)).
  by rewrite run_app.
Qed.

(** Joining the index name to any path gives a cleaned path. *)
Lemma Join_name_cleaned p idx : properName idx = true -> cleaned 1 (path.Join p idx).
Proof.
  intros Hidx. pose proof (properName_nonempty _ Hidx) as Hne.
  unfold path.Join. rewrite (eqb_nonempty _ Hne).
  destruct (String.eqb_spec p "") as [->|Hp].
  - exists false, (path.Buf 0 [idx]). split; [|split; [|simpl; lia]].
    + unfold path.Clean.
      rewrite (eqb_nonempty _ Hne), (properName_unrooted _ Hidx),
        (elements_noSlash idx (properName_noSlash _ Hidx)).
      unfold path.run. cbn [fold_left]. by rewrite (step_proper _ _ _ Hidx).
    + split; [by repeat constructor | done].
  - set (r := path.rooted p).
    set (B := path.run r (path.Buf 0 []) (path.elements p)).
    assert (HB : tidy r B).
    { apply run_tidy; [apply elements_all_noSlash | apply tidy_start]. }
    exists r, (path.Buf (path.ups B) (idx :: path.stack B)).
    rewrite (Clean_app_name p idx Hp Hidx). fold r. fold B.
    rewrite (step_proper _ _ _ Hidx).
    destruct HB as [Hst Hups].
    split; [done|split; [|simpl; lia]].
    split; [by constructor | done].
Qed.

(** Joining the index name to a cleaned path pushes one more element. *)
Lemma Join_name_deeper n p idx :
  properName idx = true -> cleaned n p -> cleaned (S n) (path.Join p idx).
Proof.
  intros Hidx (r & b & -> & Hb & Hone & Hn).
  pose proof (properName_nonempty _ Hidx) as Hne.
  pose proof (render_nonempty r b Hb Hone) as Hp.
  unfold path.Join. rewrite (eqb_nonempty _ Hne), (eqb_nonempty _ Hp).
  rewrite (Clean_app_name _ idx Hp Hidx).
  rewrite (render_rooted r b Hb Hone), (run_rendered_self r b Hb Hone).
  rewrite (step_proper _ _ _ Hidx).
  exists r, (path.Buf (path.ups b) (idx :: path.stack b)).
  destruct Hb as [Hst Hups].
  split; [done|split; [|simpl; lia]].
  split; [by constructor | done].
Qed.

(** Under any root, a cleaned path of [n] real elements is checked at a
    path of at least [n] characters. *)
Lemma Join_root_length root n p :
  cleaned n p -> (n <= String.length (path.Join root p))%nat.
Proof.
  intros (r & b & -> & Hb & Hone & Hn).
  pose proof (render_nonempty r b Hb Hone) as Hp.
  unfold path.Join. rewrite (eqb_nonempty _ Hp).
  destruct (String.eqb_spec root "") as [->|Hroot].
  - unfold path.Clean.
    rewrite (eqb_nonempty _ Hp), (render_rooted r b Hb Hone),
      (run_rendered_self r b Hb Hone).
    destruct Hb as [Hst _]. pose proof (render_length r b Hst). lia.
  - unfold path.Clean.
    assert (Hne : root ++ "/" ++ path.render r b <> "") by (by destruct root).
    rewrite (eqb_nonempty _ Hne), (rooted_app root _ Hroot).
    change (root ++ "/" ++ path.render r b)
      with (root ++ String path.slash (path.render r b)).
    rewrite elements_app_slash, run_app.
    set (r' := path.rooted root).
    set (B := path.run r' (path.Buf 0 []) (path.elements root)).
    assert (HB : tidy r' B).
    { apply run_tidy; [apply elements_all_noSlash | apply tidy_start]. }
    destruct (run_rendered r' B r b Hb Hone HB) as (B' & [Hst' _] & ->).
    destruct Hb as [Hst _].
    assert (Hall : Forall (fun e => properName e = true)
                     (path.stack (path.Buf (path.ups B')
                                    (path.stack b ++ path.stack B')))).
    { simpl. apply Forall_app. by split. }
    pose proof (render_length r' _ Hall) as Hlen. simpl in Hlen.
    rewrite length_app in Hlen. lia.
Qed.

(** A finite file system has a longest path. *)
Lemma longest_path (fs : os.FileSystem) :
  exists M : nat, forall (q : string) (entry : os.Entry),
    fs !! q = Some entry -> (String.length q <= M)%nat.
Proof.
  induction fs as [|k v fs Hfresh _ [M HM]] using map_first_key_ind.
  - exists 0%nat. intros q entry Hq. by rewrite lookup_empty in Hq.
  - exists (Nat.max M (String.length k)). intros q entry Hq.
    destruct (decide (k = q)) as [->|Hne]; [lia|].
    rewrite lookup_insert_ne in Hq; [|done].
    pose proof (HM q entry Hq). lia.
Qed.
End PathFacts.

(** ** Termination of [CheckFile] *)

Section Termination.

Variable Opts : Options.t.
Variable fs : os.FileSystem.

Lemma CheckFile_directory (fuel : nat) (ref : htmldoc.Reference) (fPath : string)
  (w : World) :
  os.Stat fs (path.Join (Options.DirectoryPath Opts) fPath) = os.FileInfo true ->
  strings.HasSuffix (htmldoc.Path ref) "/" = true ->
  CheckFile Opts fs (S fuel) ref fPath w
  = CheckFile Opts fs fuel ref (path.Join fPath (Options.DirectoryIndex Opts))
      (AddIssue (refIssue issues.DEBUG "target is a directory" ref)
         (stated (path.Join (Options.DirectoryPath Opts) fPath) w)).
Proof. intros Hstat Hslash. simpl. by rewrite Hstat, Hslash. Qed.

(** Whenever [CheckFile] ends, it has reported DEBUG "target is a
    directory" once for every directory it went through, then at most one
    more issue, and it has stat'ed one path more than it went through
    directories. *)
Lemma CheckFile_issues (fuel : nat) (ref : htmldoc.Reference) (fPath : string)
  (w : World) (out : Outcome) :
  CheckFile Opts fs fuel ref fPath w = Some out ->
  exists (k : nat) (last : list issues.Issue),
    sink (worldOf out)
    = (sink w ++ repeat (refIssue issues.DEBUG "target is a directory" ref) k
         ++ last)%list
    /\ (length last <= 1)%nat
    /\ length (statCalls (worldOf out)) = (length (statCalls w) + S k)%nat.
Proof.
  revert fPath w. induction fuel as [|fuel IH]; intros fPath w; [done|].
  simpl.
  assert (Hstat : forall name, length (statCalls (stated name w))
                               = (length (statCalls w) + 1)%nat).
  { intros name. simpl. by rewrite length_app. }
  destruct (os.Stat fs _) as [[|]| |err].
  - destruct (negb _).
    + intros [= <-]. exists 0%nat, [refIssue issues.ERROR
        "target is a directory, href lacks trailing slash" ref].
      simpl. rewrite length_app. simpl. split; [done|lia].
    + intros Hrec. destruct (IH _ _ Hrec) as (k & last & Hsink & Hlast & Hcalls).
      exists (S k), last. rewrite Hsink, Hcalls. simpl.
      rewrite <- app_assoc, length_app. simpl. split; [done|lia].
  - intros [= <-]. exists 0%nat, []. simpl. rewrite app_nil_r, length_app.
    simpl. split; [done|lia].
  - intros [= <-]. exists 0%nat, [refIssue issues.ERROR "target does not exist" ref].
    simpl. rewrite length_app. simpl. split; [done|lia].
  - intros [= <-]. exists 0%nat, []. simpl. rewrite app_nil_r, length_app.
    simpl. split; [done|lia].
Qed.

Hypothesis index_name : properName (Options.DirectoryIndex Opts) = true.

Lemma CheckFile_cleaned_ends (M : nat) :
  (forall (q : string) (entry : os.Entry),
     fs !! q = Some entry -> (String.length q <= M)%nat) ->
  forall (d n : nat) (ref : htmldoc.Reference) (p : string) (w : World),
    cleaned n p -> (M < n + d)%nat ->
    exists out, CheckFile Opts fs (S d) ref p w = Some out.
Proof.
  intros HM. induction d as [|d IH]; intros n ref p w Hp Hdeep.
  - simpl. unfold os.Stat.
    destruct (fs !! _) as [entry|] eqn:Efs; [|by eexists].
    exfalso. apply HM in Efs.
    pose proof (Join_root_length (Options.DirectoryPath Opts) n p Hp). lia.
  - destruct (os.Stat fs (path.Join (Options.DirectoryPath Opts) p))
      as [[|]| |err] eqn:Estat.
    + destruct (strings.HasSuffix (htmldoc.Path ref) "/") eqn:Eslash.
      * rewrite (CheckFile_directory _ _ _ _ Estat Eslash).
        apply (IH (S n)); [by apply Join_name_deeper | lia].
      * simpl. rewrite Estat, Eslash. by eexists.
    + simpl. rewrite Estat. by eexists.
    + simpl. rewrite Estat. by eexists.
    + simpl. rewrite Estat. by eexists.
Qed.

(** C9, for an index name proper: when the configured index name is a file
    name (one path element, not empty, not [.] and not [..]), [CheckFile]
    ends on every finite file system, from any path: each recursive call
    checks a
    path that is one element longer, so an index target that is itself a
    directory is handled again (DEBUG "target is a directory" once per
    level, the trailing-slash test being on the reference's path) until a
    path does not exist, is a regular file or cannot be stat'ed. *)
Theorem CheckFile_terminates (ref : htmldoc.Reference) (fPath : string)
  (w : World) :
  terminates Opts fs ref fPath w
  /\ (forall (fuel : nat) (out : Outcome),
        CheckFile Opts fs fuel ref fPath w = Some out ->
        exists (k : nat) (last : list issues.Issue),
          sink (worldOf out)
          = (sink w
               ++ repeat (refIssue issues.DEBUG "target is a directory" ref) k
               ++ last)%list
          /\ (length last <= 1)%nat
          /\ length (statCalls (worldOf out)) = (length (statCalls w) + S k)%nat).
Proof.
  split; [|intros fuel out; apply CheckFile_issues].
  destruct (longest_path fs) as [M HM]. exists (S (S M)).
  destruct (os.Stat fs (path.Join (Options.DirectoryPath Opts) fPath))
    as [[|]| |err] eqn:Estat.
  - destruct (strings.HasSuffix (htmldoc.Path ref) "/") eqn:Eslash.
    + rewrite (CheckFile_directory _ _ _ _ Estat Eslash).
      apply (CheckFile_cleaned_ends M HM M 1); [|lia].
      by apply Join_name_cleaned.
    + simpl. rewrite Estat, Eslash. by eexists.
  - simpl. rewrite Estat. by eexists.
  - simpl. rewrite Estat. by eexists.
  - simpl. rewrite Estat. by eexists.
Qed.

End Termination.

(** C9 on a concrete site: the index file of the site is itself a directory; the
    directory is reported at both levels and the check ends at the index
    file that is missing below. *)
Lemma CheckFile_terminates_witness :
  properName (Options.DirectoryIndex sampleOpts) = true
  /\ terminates sampleOpts nestedSite (sampleRef "/") "/" emptyWorld
  /\ CheckFile sampleOpts nestedSite 3 (sampleRef "/") "/" emptyWorld
     = Some (Returned
               (mkWorld
                  [refIssue issues.DEBUG "target is a directory" (sampleRef "/");
                   refIssue issues.DEBUG "target is a directory" (sampleRef "/");
                   refIssue issues.ERROR "target does not exist" (sampleRef "/")]
                  ∅ [] ["site"; "site/index.html"; "site/index.html/index.html"]
                  [])).
Proof.
  split; [reflexivity|]. split; [|by vm_compute].
  apply (CheckFile_terminates sampleOpts nestedSite eq_refl
           (sampleRef "/") "/" emptyWorld).
Defined.

(** C9 does not extend to the index name [.]: joining it to a path
    gives the path back, the same directory is stat'ed again, and no
    amount of fuel lets [CheckFile] end. *)
Lemma CheckFile_dot_index_loops :
  ~ terminates dotOpts siteOnly (sampleRef "/") "/" emptyWorld.
Proof.
  assert (Hloop : forall fuel w,
             CheckFile dotOpts siteOnly fuel (sampleRef "/") "/" w = None).
  { induction fuel as [|fuel IH]; intros w; [done|].
    rewrite CheckFile_directory; [|by vm_compute..].
    change (path.Join "/" (Options.DirectoryIndex dotOpts)) with "/".
    apply IH. }
  intros (fuel & out & Hends). by rewrite Hloop in Hends.
Qed.

(** * Further properties of the checker *)

Ltac branch :=
  match goal with
  | |- context [if ?b then _ else _] => destruct b eqn:?
  end.

(** ** What a check never does *)

Section Frames.

Context `{htmldoc.API} `{http.Texts} `{Util}.
Variable Opts : Options.t.
Variable net : http.Network.
Variable fs : os.FileSystem.

(** [CheckFile] sends nothing, caches nothing and logs nothing. *)
Lemma CheckFile_frame (fuel : nat) (ref : htmldoc.Reference) (fPath : string)
  (w : World) (out : Outcome) :
  CheckFile Opts fs fuel ref fPath w = Some out ->
  requests (worldOf out) = requests w
  /\ urlStatus (worldOf out) = urlStatus w
  /\ logLines (worldOf out) = logLines w.
Proof.
  revert fPath w. induction fuel as [|fuel IH]; intros fPath w; [done|].
  simpl. destruct (os.Stat fs _) as [[|]| |err].
  - branch; [by intros [= <-]|]. intros Hrec. by destruct (IH _ _ Hrec).
  - by intros [= <-].
  - by intros [= <-].
  - by intros [= <-].
Qed.

(** A run of [CheckFile] that aborts ended on a path that could not be
    stat'ed. *)
Lemma CheckFile_aborted (fuel : nat) (ref : htmldoc.Reference) (fPath : string)
  (w w' : World) (err : string) :
  CheckFile Opts fs fuel ref fPath w = Some (Aborted err w') ->
  exists (before : list string) (name : string),
    statCalls w' = (statCalls w ++ before ++ [name])%list
    /\ os.Stat fs name = os.ErrOther err.
Proof.
  revert fPath w. induction fuel as [|fuel IH]; intros fPath w; [done|].
  simpl. destruct (os.Stat fs _) as [[|]| |e] eqn:Estat; try done.
  - branch; [done|]. intros Hrec.
    destruct (IH _ _ Hrec) as (before & name & Hcalls & Hname).
    exists (path.Join (Options.DirectoryPath Opts) fPath :: before), name.
    split; [|done]. rewrite Hcalls. simpl. by rewrite <- app_assoc.
  - unfold checkErr. intros [= -> <-].
    exists [], (path.Join (Options.DirectoryPath Opts) fPath). by split.
Qed.

Lemma CheckExternal_statCalls (ref : htmldoc.Reference) (w : World) :
  statCalls (CheckExternal Opts net ref w) = statCalls w.
Proof.
  unfold CheckExternal, reportStatus, Do.
  destruct (net _ _); by repeat branch.
Qed.

(** [CheckExternal] sends at most the one probe, and only for a key that
    has no status in the cache. *)
Lemma CheckExternal_requests (ref : htmldoc.Reference) (w : World) :
  requests (CheckExternal Opts net ref w) = requests w
  \/ (Options.CheckExternal Opts = true
      /\ refcache.CachedURLStatus (cacheKey Opts ref) w = 0
      /\ requests (CheckExternal Opts net ref w)
         = (requests w ++ [probe (cacheKey Opts ref)])%list).
Proof.
  unfold CheckExternal, reportStatus, Do.
  destruct (Options.CheckExternal Opts); simpl; [|by left].
  destruct (Z.eqb_spec (refcache.CachedURLStatus (cacheKey Opts ref) w) 0)
    as [Hmiss|Hhit]; simpl.
  - right. split; [done|]. split; [done|].
    destruct (net _ _); by repeat branch.
  - left. by repeat branch.
Qed.

(** [CheckExternal] writes to the log only on a transport error that is
    neither a dial error nor a timeout. *)
Lemma CheckExternal_logLines (ref : htmldoc.Reference) (w : World) :
  logLines (CheckExternal Opts net ref w) = logLines w
  \/ exists err : string,
       net (length (requests w)) (probe (cacheKey Opts ref)) = http.Error err
       /\ strings.Contains err "dial tcp" = false
       /\ strings.Contains err "Client.Timeout" = false
       /\ logLines (CheckExternal Opts net ref w)
          = (logLines w ++ [("Unhandled httpClient error: " ++ err)%string])%list.
Proof.
  unfold CheckExternal, reportStatus, Do.
  destruct (negb (Options.CheckExternal Opts)); [by left|].
  destruct (negb _); [left; by repeat branch|].
  destruct (net _ _) as [status|err] eqn:Enet; [left; by repeat branch|].
  destruct (strings.Contains err "dial tcp") eqn:Edial; [by left|].
  destruct (strings.Contains err "Client.Timeout") eqn:Etime; [by left|].
  right. by exists err.
Qed.

Lemma CheckMailto_frame (ref : htmldoc.Reference) (w : World) :
  requests (CheckMailto Opts ref w) = requests w
  /\ urlStatus (CheckMailto Opts ref w) = urlStatus w
  /\ statCalls (CheckMailto Opts ref w) = statCalls w
  /\ logLines (CheckMailto Opts ref w) = logLines w.
Proof. unfold CheckMailto. by repeat branch. Qed.

Lemma CheckTel_frame (ref : htmldoc.Reference) (w : World) :
  requests (CheckTel Opts ref w) = requests w
  /\ urlStatus (CheckTel Opts ref w) = urlStatus w
  /\ statCalls (CheckTel Opts ref w) = statCalls w
  /\ logLines (CheckTel Opts ref w) = logLines w.
Proof. unfold CheckTel. by repeat branch. Qed.

Lemma CheckLink_ends (fuel : nat) (doc : htmldoc.Document) (node : html.Node)
  (w : World) :
  let attrs := extractAttrs (html.Attr node) ["href"; "rel"; "data-proofer-ignore"] in
  let ref := htmldoc.NewReference doc node (index attrs "href") in
  CheckLink Opts net fs fuel doc node w = Some (Returned w)
  \/ (exists i, CheckLink Opts net fs fuel doc node w = Some (Returned (AddIssue i w)))
  \/ CheckLink Opts net fs fuel doc node w = routeReference Opts net fs fuel ref w.
Proof.
  intros attrs ref. unfold CheckLink. fold attrs. fold ref.
  repeat (branch; [first [by left | right; left; by eexists]|]).
  by right; right.
Qed.

Lemma CheckExternal_disabled (ref : htmldoc.Reference) (w : World) :
  Options.CheckExternal Opts = false ->
  CheckExternal Opts net ref w = AddIssue (refIssue issues.DEBUG "skipping" ref) w.
Proof. intros Hoff. unfold CheckExternal. by rewrite Hoff. Qed.

(** X1: the network and the cache are touched by external checks only.
    When external checking is switched off, or the reference of the node
    has a scheme other than [http] and [https], [CheckLink] sends no
    request and leaves the cache as it is, whatever the node and however
    the check ends. *)
Theorem CheckLink_network_only_external (fuel : nat) (doc : htmldoc.Document)
  (node : html.Node) (w : World) (out : Outcome) :
  let attrs := extractAttrs (html.Attr node) ["href"; "rel"; "data-proofer-ignore"] in
  let ref := htmldoc.NewReference doc node (index attrs "href") in
  Options.CheckExternal Opts = false
  \/ (htmldoc.Scheme ref <> "http" /\ htmldoc.Scheme ref <> "https") ->
  CheckLink Opts net fs fuel doc node w = Some out ->
  requests (worldOf out) = requests w /\ urlStatus (worldOf out) = urlStatus w.
Proof.
  intros attrs ref Hquiet.
  destruct (CheckLink_ends fuel doc node w) as [-> | [[i ->] | ->]];
    [by intros [= <-] | by intros [= <-] |].
  fold attrs. fold ref. unfold routeReference.
  destruct (String.eqb_spec (htmldoc.Scheme ref) "http") as [Hhttp|_].
  { destruct Hquiet as [Hoff | [Hne _]]; [|done].
    intros [= <-]. rewrite (CheckExternal_disabled _ _ Hoff). simpl.
    by destruct (Options.EnforceHTTPS Opts). }
  destruct (String.eqb_spec (htmldoc.Scheme ref) "https") as [Hhttps|_].
  { destruct Hquiet as [Hoff | [_ Hne]]; [|done].
    intros [= <-]. by rewrite (CheckExternal_disabled _ _ Hoff). }
  branch.
  { unfold CheckInternal. branch; [by intros [= <-]|].
    intros Hfile. by destruct (CheckFile_frame _ _ _ _ _ Hfile) as (? & ? & _). }
  branch; [intros [= <-]; by destruct (CheckMailto_frame ref w) as (? & ? & _)|].
  branch; [intros [= <-]; by destruct (CheckTel_frame ref w) as (? & ? & _)|].
  by intros [= <-].
Qed.

(** X2: with internal checking switched off [CheckLink] never stats a
    path and never aborts: for every node it returns, and the record of
    stat calls is as before. *)
Theorem CheckLink_internal_off (fuel : nat) (doc : htmldoc.Document)
  (node : html.Node) (w : World) :
  Options.CheckInternal Opts = false ->
  exists w' : World,
    CheckLink Opts net fs fuel doc node w = Some (Returned w')
    /\ statCalls w' = statCalls w.
Proof.
  intros Hoff.
  destruct (CheckLink_ends fuel doc node w) as [-> | [[i ->] | ->]];
    [by eexists | by eexists |].
  unfold routeReference, CheckInternal. rewrite Hoff. simpl.
  repeat branch; (eexists; split; [reflexivity|]); simpl;
    first [ done | by rewrite CheckExternal_statCalls
          | by destruct (CheckMailto_frame (htmldoc.NewReference doc node
                 (index (extractAttrs (html.Attr node)
                    ["href"; "rel"; "data-proofer-ignore"]) "href")) w)
                 as (_ & _ & ? & _)
          | by destruct (CheckTel_frame (htmldoc.NewReference doc node
                 (index (extractAttrs (html.Attr node)
                    ["href"; "rel"; "data-proofer-ignore"]) "href")) w)
                 as (_ & _ & ? & _) ].
Qed.

(** X4: one check sends at most one request, and what it sends is the
    probe: a GET of the cache key of the reference with the header
    [Range: bytes=0-63], sent only when the cache has no status for that
    key. *)
Theorem CheckLink_one_probe (fuel : nat) (doc : htmldoc.Document)
  (node : html.Node) (w : World) (out : Outcome) :
  let attrs := extractAttrs (html.Attr node) ["href"; "rel"; "data-proofer-ignore"] in
  let ref := htmldoc.NewReference doc node (index attrs "href") in
  CheckLink Opts net fs fuel doc node w = Some out ->
  requests (worldOf out) = requests w
  \/ (refcache.CachedURLStatus (cacheKey Opts ref) w = 0
      /\ requests (worldOf out)
         = (requests w
              ++ [{| http.Method := "GET"; http.URL := cacheKey Opts ref;
                     http.Header := [("Range", ["bytes=0-63"])] |}])%list).
Proof.
  intros attrs ref.
  destruct (CheckLink_ends fuel doc node w) as [-> | [[i ->] | ->]];
    [intros [= <-]; by left | intros [= <-]; by left |].
  fold attrs. fold ref. unfold routeReference.
  branch.
  { intros [= <-]. simpl.
    destruct (Options.EnforceHTTPS Opts).
    - destruct (CheckExternal_requests ref
                  (AddIssue (refIssue issues.ERROR "is not an HTTPS target" ref) w))
        as [Hsame | (_ & Hmiss & Hsent)]; [by left | by right].
    - destruct (CheckExternal_requests ref w)
        as [Hsame | (_ & Hmiss & Hsent)]; [by left | by right]. }
  branch.
  { intros [= <-]. simpl.
    destruct (CheckExternal_requests ref w)
      as [Hsame | (_ & Hmiss & Hsent)]; [by left | by right]. }
  branch.
  { unfold CheckInternal. branch; [intros [= <-]; by left|].
    intros Hfile. left. by destruct (CheckFile_frame _ _ _ _ _ Hfile). }
  branch; [intros [= <-]; left; by destruct (CheckMailto_frame ref w)|].
  branch; [intros [= <-]; left; by destruct (CheckTel_frame ref w)|].
  intros [= <-]. by left.
Qed.

(** X7: the operator log is written only for an unhandled transport
    error: a check either leaves the log as it is, or its probe failed
    with an error that is neither a dial error nor a timeout, and the one
    line "Unhandled httpClient error: " followed by the error text was
    added. *)
Theorem CheckLink_logs_only_unhandled (fuel : nat) (doc : htmldoc.Document)
  (node : html.Node) (w : World) (out : Outcome) :
  let attrs := extractAttrs (html.Attr node) ["href"; "rel"; "data-proofer-ignore"] in
  let ref := htmldoc.NewReference doc node (index attrs "href") in
  CheckLink Opts net fs fuel doc node w = Some out ->
  logLines (worldOf out) = logLines w
  \/ exists err : string,
       net (length (requests w)) (probe (cacheKey Opts ref)) = http.Error err
       /\ strings.Contains err "dial tcp" = false
       /\ strings.Contains err "Client.Timeout" = false
       /\ logLines (worldOf out)
          = (logLines w ++ [("Unhandled httpClient error: " ++ err)%string])%list.
Proof.
  intros attrs ref.
  destruct (CheckLink_ends fuel doc node w) as [-> | [[i ->] | ->]];
    [intros [= <-]; by left | intros [= <-]; by left |].
  fold attrs. fold ref. unfold routeReference.
  branch.
  { intros [= <-]. simpl.
    destruct (Options.EnforceHTTPS Opts).
    - exact (CheckExternal_logLines ref
               (AddIssue (refIssue issues.ERROR "is not an HTTPS target" ref) w)).
    - exact (CheckExternal_logLines ref w). }
  branch; [intros [= <-]; exact (CheckExternal_logLines ref w)|].
  branch.
  { unfold CheckInternal. branch; [intros [= <-]; by left|].
    intros Hfile. left. by destruct (CheckFile_frame _ _ _ _ _ Hfile) as (_ & _ & ?). }
  branch; [intros [= <-]; left; by destruct (CheckMailto_frame ref w) as (_ & _ & _ & ?)|].
  branch; [intros [= <-]; left; by destruct (CheckTel_frame ref w) as (_ & _ & _ & ?)|].
  intros [= <-]. by left.
Qed.

(** X11: only an internal check can abort the run.  When [CheckLink]
    aborts, internal checking is on, the reference has the scheme [file],
    the error is the one [os.Stat] gave for the last path that was
    stat'ed, and requests, cache and log are as they were. *)
Theorem CheckLink_aborts_only_on_stat (fuel : nat) (doc : htmldoc.Document)
  (node : html.Node) (w w' : World) (err : string) :
  let attrs := extractAttrs (html.Attr node) ["href"; "rel"; "data-proofer-ignore"] in
  let ref := htmldoc.NewReference doc node (index attrs "href") in
  CheckLink Opts net fs fuel doc node w = Some (Aborted err w') ->
  Options.CheckInternal Opts = true
  /\ htmldoc.Scheme ref = "file"
  /\ (exists (before : list string) (name : string),
        statCalls w' = (statCalls w ++ before ++ [name])%list
        /\ os.Stat fs name = os.ErrOther err)
  /\ requests w' = requests w
  /\ urlStatus w' = urlStatus w
  /\ logLines w' = logLines w.
Proof.
  intros attrs ref.
  destruct (CheckLink_ends fuel doc node w) as [-> | [[i ->] | ->]];
    [done | done |].
  fold attrs. fold ref. unfold routeReference.
  branch; [done|]. branch; [done|].
  destruct (String.eqb_spec (htmldoc.Scheme ref) "file") as [Hfile|_].
  - unfold CheckInternal.
    destruct (Options.CheckInternal Opts); simpl; [|done].
    intros Hcheck.
    destruct (CheckFile_frame _ _ _ _ _ Hcheck) as (Hreq & Hcache & Hlog).
    repeat split; try done. by eapply CheckFile_aborted.
  - by repeat branch.
Qed.

End Frames.

(** ** More on [CheckExternal] *)

Lemma append_assoc (a b c : string) : (a ++ b) ++ c = a ++ (b ++ c).
Proof.
  induction a as [|ch a IH]; [reflexivity|].
  change (String ch ((a ++ b) ++ c) = String ch (a ++ (b ++ c))).
  by rewrite IH.
Qed.

Lemma HasPrefix_app (prefix s : string) : strings.HasPrefix (prefix ++ s) prefix = true.
Proof.
  induction prefix as [|ch prefix IH]; [by destruct s|].
  change (strings.HasPrefix (String ch (prefix ++ s)) (String ch prefix) = true).
  simpl. by rewrite Ascii.eqb_refl, IH.
Qed.

Lemma TrimPrefix_app (prefix s : string) : strings.TrimPrefix (prefix ++ s) prefix = s.
Proof.
  unfold strings.TrimPrefix. rewrite HasPrefix_app.
  induction prefix as [|ch prefix IH]; [reflexivity|].
  change (strings.drop (String.length prefix) (prefix ++ s) = s). exact IH.
Qed.

Lemma Contains_app_r (a b substr : string) :
  strings.Contains b substr = true -> strings.Contains (a ++ b) substr = true.
Proof.
  intros Hb. induction a as [|ch a IH]; [exact Hb|].
  change (strings.Contains (String ch (a ++ b)) substr = true).
  simpl. rewrite IH. apply orb_true_r.
Qed.

Lemma AddIssue_changes (i : issues.Issue) (w : World) : AddIssue i w <> w.
Proof.
  intros Heq. apply (f_equal (fun v => length (sink v))) in Heq.
  simpl in Heq. rewrite length_app in Heq. simpl in Heq. lia.
Qed.

Section ExternalMore.

Context `{htmldoc.API} `{http.Texts} `{Util}.
Variable Opts : Options.t.
Variable net : http.Network.

Lemma CheckExternal_miss_requests (ref : htmldoc.Reference) (w : World) :
  Options.CheckExternal Opts = true ->
  refcache.CachedURLStatus (cacheKey Opts ref) w = 0 ->
  requests (CheckExternal Opts net ref w)
  = (requests w ++ [probe (cacheKey Opts ref)])%list.
Proof.
  intros Hon Hmiss. unfold CheckExternal, Do. rewrite Hon, Hmiss. simpl.
  destruct (net _ _) as [status|err]; [by rewrite reportStatus_level|].
  destruct (strings.Contains err "dial tcp"); [done|].
  by destruct (strings.Contains err "Client.Timeout").
Qed.

(** X5: a response is cached under the key of the reference, whatever its
    status (a 404 or a 500 as well as a 200), and the statuses cached for
    other URLs stay as they are. *)
Theorem CheckExternal_caches_response (ref : htmldoc.Reference) (w : World)
  (status : Z) :
  Options.CheckExternal Opts = true ->
  refcache.CachedURLStatus (cacheKey Opts ref) w = 0 ->
  net (length (requests w)) (probe (cacheKey Opts ref)) = http.Response status ->
  refcache.CachedURLStatus (cacheKey Opts ref) (CheckExternal Opts net ref w)
  = status
  /\ (forall other : string,
        other <> cacheKey Opts ref ->
        refcache.CachedURLStatus other (CheckExternal Opts net ref w)
        = refcache.CachedURLStatus other w).
Proof.
  intros Hon Hmiss Hresp. unfold CheckExternal, Do.
  rewrite Hon, Hmiss, Hresp. simpl. rewrite reportStatus_level.
  unfold refcache.CachedURLStatus. simpl. split.
  - by rewrite lookup_insert_eq.
  - intros other Hne. by rewrite lookup_insert_ne.
Qed.

(** X6: a probe that failed is not remembered.  After a transport error the
    cache has no status for the key, and the next external check of the
    same key sends the probe again; when that one is answered, its status
    is cached. *)
Theorem CheckExternal_retries_failed_probe (ref1 ref2 : htmldoc.Reference)
  (w : World) (err : string) :
  Options.CheckExternal Opts = true ->
  cacheKey Opts ref2 = cacheKey Opts ref1 ->
  refcache.CachedURLStatus (cacheKey Opts ref1) w = 0 ->
  net (length (requests w)) (probe (cacheKey Opts ref1)) = http.Error err ->
  let w1 := CheckExternal Opts net ref1 w in
  let w2 := CheckExternal Opts net ref2 w1 in
  refcache.CachedURLStatus (cacheKey Opts ref1) w1 = 0
  /\ requests w2
     = (requests w ++ [probe (cacheKey Opts ref1); probe (cacheKey Opts ref1)])%list
  /\ (forall status : Z,
        net (S (length (requests w))) (probe (cacheKey Opts ref1))
        = http.Response status ->
        refcache.CachedURLStatus (cacheKey Opts ref1) w2 = status).
Proof.
  intros Hon Hkey Hmiss Herr w1 w2.
  assert (Hcache1 : urlStatus w1 = urlStatus w).
  { subst w1. unfold CheckExternal, Do. rewrite Hon, Hmiss, Herr. simpl.
    destruct (strings.Contains err "dial tcp"); [done|].
    by destruct (strings.Contains err "Client.Timeout"). }
  assert (Hreq1 : requests w1 = (requests w ++ [probe (cacheKey Opts ref1)])%list)
    by (by apply CheckExternal_miss_requests).
  assert (Hmiss1 : refcache.CachedURLStatus (cacheKey Opts ref2) w1 = 0).
  { rewrite Hkey. unfold refcache.CachedURLStatus in *. by rewrite Hcache1. }
  assert (Hlen : length (requests w1) = S (length (requests w))).
  { rewrite Hreq1, length_app. simpl. lia. }
  split; [by rewrite <- Hkey|]. split.
  - subst w2. rewrite (CheckExternal_miss_requests ref2 w1 Hon Hmiss1).
    by rewrite Hreq1, Hkey, <- app_assoc.
  - intros status Hresp. rewrite <- Hkey in Hresp. rewrite <- Hlen in Hresp.
    rewrite <- Hkey. subst w2. unfold CheckExternal, Do.
    rewrite Hon, Hmiss1, Hresp. simpl. rewrite reportStatus_level.
    unfold refcache.CachedURLStatus. simpl. by rewrite lookup_insert_eq.
Qed.

(** X8: the long prefix of a lookup failure is removed for every URL: when
    the error text is "Get {urlStr}: dial tcp: lookup " followed by some
    text, the message of the ERROR issue is that text. *)
Theorem CheckExternal_lookup_message (ref : htmldoc.Reference) (w : World)
  (rest : string) :
  Options.CheckExternal Opts = true ->
  refcache.CachedURLStatus (cacheKey Opts ref) w = 0 ->
  net (length (requests w)) (probe (cacheKey Opts ref))
  = http.Error ("Get " ++ cacheKey Opts ref ++ ": dial tcp: lookup " ++ rest) ->
  sink (CheckExternal Opts net ref w)
  = (sink w ++ [refIssue issues.ERROR rest ref])%list.
Proof.
  intros Hon Hmiss Herr. unfold CheckExternal, Do.
  rewrite Hon, Hmiss, Herr. simpl negb. cbv iota beta.
  assert (Hdial : strings.Contains
                    ("Get " ++ cacheKey Opts ref ++ ": dial tcp: lookup " ++ rest)
                    "dial tcp" = true).
  { apply Contains_app_r, Contains_app_r. reflexivity. }
  rewrite Hdial.
  replace ("Get " ++ cacheKey Opts ref ++ ": dial tcp: lookup " ++ rest)
    with (("Get " ++ cacheKey Opts ref ++ ": dial tcp: lookup ") ++ rest)
    by (by rewrite !append_assoc).
  by rewrite TrimPrefix_app.
Qed.

End ExternalMore.

(** ** [CheckMailto] and [CheckTel] *)

Section Opaque.

Variable Opts : Options.t.

Lemma length_zero (s : string) : (String.length s =? 0)%nat = true <-> s = "".
Proof. destruct s; simpl; split; done. Qed.

(** X9: [CheckMailto] is silent exactly when the check is switched off or
    the opaque part of the URL contains an [@] (anywhere: a lone [@]
    passes); in every other case it adds one ERROR issue, "mailto is empty"
    for an empty opaque part and "contains an invalid email address"
    otherwise. *)
Theorem CheckMailto_silent_iff (ref : htmldoc.Reference) (w : World) :
  let opaque := url.Opaque (htmldoc.URL ref) in
  (CheckMailto Opts ref w = w
   <-> Options.CheckMailto Opts = false \/ strings.Contains opaque "@" = true)
  /\ (CheckMailto Opts ref w <> w ->
      CheckMailto Opts ref w
      = AddIssue (refIssue issues.ERROR
                    (if String.eqb opaque "" then "mailto is empty"
                     else "contains an invalid email address") ref) w).
Proof.
  intros opaque. unfold CheckMailto. fold opaque.
  destruct (Options.CheckMailto Opts); simpl; [|split; [by split; auto|done]].
  destruct (String.length opaque =? 0)%nat eqn:Elen.
  - apply length_zero in Elen. rewrite Elen. simpl. split; [|done]. split.
    + intros Heq. by apply AddIssue_changes in Heq.
    + by intros [?|?].
  - assert (Hne : String.eqb opaque "" = false).
    { apply String.eqb_neq. intros Heq. rewrite Heq in Elen. done. }
    rewrite Hne.
    destruct (strings.Contains opaque "@") eqn:Eat; simpl.
    + split; [by split; auto|done].
    + split; [|done]. split.
      * intros Heq. by apply AddIssue_changes in Heq.
      * by intros [?|?].
Qed.

(** X10: [CheckTel] is silent exactly when the check is switched off or
    the opaque part of the URL is not empty (nothing else is looked at);
    otherwise it adds the one ERROR issue "tel is empty". *)
Theorem CheckTel_silent_iff (ref : htmldoc.Reference) (w : World) :
  let opaque := url.Opaque (htmldoc.URL ref) in
  (CheckTel Opts ref w = w
   <-> Options.CheckTel Opts = false \/ opaque <> "")
  /\ (CheckTel Opts ref w <> w ->
      CheckTel Opts ref w = AddIssue (refIssue issues.ERROR "tel is empty" ref) w).
Proof.
  intros opaque. unfold CheckTel. fold opaque.
  destruct (Options.CheckTel Opts); simpl; [|split; [by split; auto|done]].
  destruct (String.length opaque =? 0)%nat eqn:Elen.
  - apply length_zero in Elen. split; [|done]. split.
    + intros Heq. by apply AddIssue_changes in Heq.
    + by intros [?|?].
  - split; [|done]. split; [|done]. intros _. right. intros Heq.
    rewrite Heq in Elen. done.
Qed.

End Opaque.

(** ** More on [CheckFile] *)

Section FilesMore.

Variable Opts : Options.t.
Variable fs : os.FileSystem.

(** X12: for a reference whose path does not end in a slash [CheckFile]
    stats one path and ends, whatever the file system and whatever the
    index name: it never goes into a directory. *)
Theorem CheckFile_no_slash_one_stat (fuel : nat) (ref : htmldoc.Reference)
  (fPath : string) (w : World) :
  strings.HasSuffix (htmldoc.Path ref) "/" = false ->
  exists out : Outcome,
    CheckFile Opts fs (S fuel) ref fPath w = Some out
    /\ statCalls (worldOf out)
       = (statCalls w ++ [path.Join (Options.DirectoryPath Opts) fPath])%list
    /\ (length (sink (worldOf out)) <= S (length (sink w)))%nat.
Proof.
  intros Hslash. simpl. rewrite Hslash. simpl.
  destruct (os.Stat fs _) as [[|]| |err]; eexists; (split; [reflexivity|]);
    simpl; rewrite ?length_app; simpl; split; first [done | lia].
Qed.

(** X13: a reference with a trailing slash to a directory is resolved to
    the index file of the directory: when that file is a regular file the
    only issue is DEBUG "target is a directory"; when it does not exist the
    DEBUG issue is followed by ERROR "target does not exist"; either way
    the directory and the index file are the two paths stat'ed. *)
Theorem CheckFile_directory_index (fuel : nat) (ref : htmldoc.Reference)
  (fPath : string) (w : World) :
  let dir := path.Join (Options.DirectoryPath Opts) fPath in
  let file := path.Join (Options.DirectoryPath Opts)
                (path.Join fPath (Options.DirectoryIndex Opts)) in
  let isDir := refIssue issues.DEBUG "target is a directory" ref in
  fs !! dir = Some os.Directory ->
  strings.HasSuffix (htmldoc.Path ref) "/" = true ->
  (fs !! file = Some os.RegularFile ->
   CheckFile Opts fs (S (S fuel)) ref fPath w
   = Some (Returned (mkWorld (sink w ++ [isDir]) (urlStatus w) (requests w)
                       (statCalls w ++ [dir; file]) (logLines w))))
  /\ (fs !! file = None ->
      CheckFile Opts fs (S (S fuel)) ref fPath w
      = Some (Returned
                (mkWorld
                   (sink w ++ [isDir; refIssue issues.ERROR "target does not exist" ref])
                   (urlStatus w) (requests w)
                   (statCalls w ++ [dir; file]) (logLines w)))).
Proof.
  intros dir file isDir Hdir Hslash.
  assert (Hstat : os.Stat fs dir = os.FileInfo true)
    by (unfold os.Stat; by rewrite Hdir).
  rewrite (CheckFile_directory Opts fs (S fuel) ref fPath w Hstat Hslash).
  fold dir. simpl. fold file. unfold os.Stat.
  split; intros Hfile; rewrite Hfile; unfold AddIssue, stated; simpl;
    by rewrite <- !app_assoc.
Qed.

End FilesMore.

(** ** The cache over a run *)

Section CacheMore.

Context `{htmldoc.API} `{http.Texts} `{Util}.
Variable Opts : Options.t.
Variable net : http.Network.
Variable fs : os.FileSystem.

(** X14: a status other than 0 that the cache holds for a URL stays for the
    rest of the run: no check of any node changes it, so a URL is given at
    most one such status in a run. *)
Theorem cached_status_stable (urlStr : string) (status : Z) (w w' : World) :
  refcache.CachedURLStatus urlStr w = status ->
  status <> 0 ->
  later Opts net fs w w' ->
  refcache.CachedURLStatus urlStr w' = status.
Proof.
  intros Hcached Hnz Hlater.
  exact (later_keeps Opts net fs urlStr status w w' Hnz Hcached Hlater).
Qed.

End CacheMore.

(** ** HTTPS enforcement without external checking *)

Section Enforcement.

Context `{htmldoc.API} `{http.Texts} `{Util}.
Variable Opts : Options.t.
Variable net : http.Network.
Variable fs : os.FileSystem.

(** X15: HTTPS enforcement does not depend on external checking.  With
    [EnforceHTTPS] set and external checking switched off, a reference of
    scheme [http] that reaches the routing still gets the ERROR issue "is
    not an HTTPS target", followed by DEBUG "skipping", and nothing is
    sent, cached, stat'ed or logged. *)
Theorem CheckLink_enforces_without_probe (fuel : nat) (doc : htmldoc.Document)
  (node : html.Node) (w : World) :
  let attrs := extractAttrs (html.Attr node) ["href"; "rel"; "data-proofer-ignore"] in
  let ref := htmldoc.NewReference doc node (index attrs "href") in
  index attrs "rel" <> "canonical" ->
  attrPresent (html.Attr node) "data-proofer-ignore" = false ->
  index attrs "href" <> "" ->
  index attrs "href" <> "#" ->
  htmldoc.Scheme ref = "http" ->
  Options.EnforceHTTPS Opts = true ->
  Options.CheckExternal Opts = false ->
  CheckLink Opts net fs fuel doc node w
  = Some (Returned
            (mkWorld
               (sink w ++ [refIssue issues.ERROR "is not an HTTPS target" ref;
                           refIssue issues.DEBUG "skipping" ref])
               (urlStatus w) (requests w) (statCalls w) (logLines w))).
Proof.
  intros attrs ref Hrel Hign Hblank Hhash Hscheme Henf Hoff.
  rewrite (CheckLink_routes Opts net fs fuel doc node w Hrel Hign Hblank Hhash).
  fold attrs. fold ref. unfold routeReference, CheckExternal.
  rewrite Hscheme, Henf, Hoff. simpl. unfold AddIssue. simpl.
  by rewrite <- app_assoc.
Qed.

End Enforcement.

(** ** The further properties on concrete inputs *)

(** X1 on a concrete node: an [http] link with external checking off. *)
Lemma CheckLink_network_only_external_witness :
  exists out : Outcome,
    @CheckLink sampleAPI sampleTexts sampleUtil offOpts (always 200) sampleSite 0
       sampleDoc (sampleLink "http://example.com/") emptyWorld = Some out
    /\ requests (worldOf out) = [] /\ urlStatus (worldOf out) = ∅.
Proof.
  eexists. split; [reflexivity|].
  apply (@CheckLink_network_only_external sampleAPI sampleTexts sampleUtil
           offOpts (always 200) sampleSite 0 sampleDoc
           (sampleLink "http://example.com/") emptyWorld);
    [left; reflexivity | reflexivity].
Defined.

(** X2 on a concrete node: a link into the site with internal checking
    off. *)
Lemma CheckLink_internal_off_witness :
  exists w' : World,
    @CheckLink sampleAPI sampleTexts sampleUtil offOpts (always 200) sampleSite 0
       sampleDoc (sampleLink "private") emptyWorld = Some (Returned w')
    /\ statCalls w' = [].
Proof.
  exact (@CheckLink_internal_off sampleAPI sampleTexts sampleUtil offOpts
           (always 200) sampleSite 0 sampleDoc (sampleLink "private")
           emptyWorld eq_refl).
Defined.

(** X4 on a concrete node: an [https] link that is not cached. *)
Lemma CheckLink_one_probe_witness :
  let out := Returned (@CheckExternal sampleAPI sampleTexts sampleUtil sampleOpts
                         (always 200) (sampleRef "https://example.com/")
                         emptyWorld) in
  requests (worldOf out) = []
  \/ (refcache.CachedURLStatus "https://example.com/" emptyWorld = 0
      /\ requests (worldOf out)
         = [{| http.Method := "GET"; http.URL := "https://example.com/";
               http.Header := [("Range", ["bytes=0-63"])] |}]).
Proof.
  exact (@CheckLink_one_probe sampleAPI sampleTexts sampleUtil sampleOpts
           (always 200) sampleSite 0 sampleDoc (sampleLink "https://example.com/")
           emptyWorld _ eq_refl).
Defined.

(** X5 on a concrete response: a 404. *)
Lemma CheckExternal_caches_response_witness :
  let w := @CheckExternal sampleAPI sampleTexts sampleUtil sampleOpts (always 404)
             (sampleRef "https://example.com/gone") emptyWorld in
  refcache.CachedURLStatus "https://example.com/gone" w = 404
  /\ (forall other : string,
        other <> "https://example.com/gone" ->
        refcache.CachedURLStatus other w
        = refcache.CachedURLStatus other emptyWorld).
Proof.
  exact (@CheckExternal_caches_response sampleAPI sampleTexts sampleUtil
           sampleOpts (always 404) (sampleRef "https://example.com/gone")
           emptyWorld 404 eq_refl eq_refl eq_refl).
Defined.

(** X6 on a concrete network: the first request fails, the second is
    answered with 200. *)
Lemma CheckExternal_retries_failed_probe_witness :
  let ref := sampleRef "https://example.com/" in
  let net := flaky "connection reset by peer" 200 in
  let w1 := @CheckExternal sampleAPI sampleTexts sampleUtil sampleOpts net ref
              emptyWorld in
  let w2 := @CheckExternal sampleAPI sampleTexts sampleUtil sampleOpts net ref w1 in
  refcache.CachedURLStatus "https://example.com/" w1 = 0
  /\ requests w2 = [probe "https://example.com/"; probe "https://example.com/"]
  /\ (forall status : Z,
        net 1%nat (probe "https://example.com/") = http.Response status ->
        refcache.CachedURLStatus "https://example.com/" w2 = status).
Proof.
  exact (@CheckExternal_retries_failed_probe sampleAPI sampleTexts sampleUtil
           sampleOpts (flaky "connection reset by peer" 200)
           (sampleRef "https://example.com/") (sampleRef "https://example.com/")
           emptyWorld "connection reset by peer" eq_refl eq_refl eq_refl eq_refl).
Defined.

(** X7 on a concrete error: an unexpected end of file. *)
Lemma CheckLink_logs_only_unhandled_witness :
  let out := Returned (@CheckExternal sampleAPI sampleTexts sampleUtil sampleOpts
                         (failing "unexpected EOF")
                         (sampleRef "https://example.com/") emptyWorld) in
  logLines (worldOf out) = []
  \/ exists err : string,
       failing "unexpected EOF" 0%nat (probe "https://example.com/") = http.Error err
       /\ strings.Contains err "dial tcp" = false
       /\ strings.Contains err "Client.Timeout" = false
       /\ logLines (worldOf out)
          = [("Unhandled httpClient error: " ++ err)%string].
Proof.
  exact (@CheckLink_logs_only_unhandled sampleAPI sampleTexts sampleUtil
           sampleOpts (failing "unexpected EOF") sampleSite 0 sampleDoc
           (sampleLink "https://example.com/") emptyWorld _ eq_refl).
Defined.

(** X8 on a concrete error: a name that does not resolve. *)
Lemma CheckExternal_lookup_message_witness :
  let ref := sampleRef "http://nowhere.invalid/" in
  sink (@CheckExternal sampleAPI sampleTexts sampleUtil sampleOpts
          (failing "Get http://nowhere.invalid/: dial tcp: lookup nowhere.invalid: no such host")
          ref emptyWorld)
  = [refIssue issues.ERROR "nowhere.invalid: no such host" ref].
Proof.
  exact (@CheckExternal_lookup_message sampleAPI sampleTexts sampleUtil
           sampleOpts
           (failing "Get http://nowhere.invalid/: dial tcp: lookup nowhere.invalid: no such host")
           (sampleRef "http://nowhere.invalid/") emptyWorld
           "nowhere.invalid: no such host" eq_refl eq_refl eq_refl).
Defined.

(** X11 on a concrete node: a link to a directory that cannot be read. *)
Lemma CheckLink_aborts_only_on_stat_witness :
  @CheckLink sampleAPI sampleTexts sampleUtil sampleOpts (always 200) sampleSite 1
     sampleDoc (sampleLink "private") emptyWorld
  = Some (Aborted "permission denied" (stated "site/private" emptyWorld))
  /\ Options.CheckInternal sampleOpts = true
  /\ htmldoc.Scheme (sampleRef "private") = "file"
  /\ (exists (before : list string) (name : string),
        statCalls (stated "site/private" emptyWorld) = ([] ++ before ++ [name])%list
        /\ os.Stat sampleSite name = os.ErrOther "permission denied").
Proof.
  split; [reflexivity|].
  destruct (@CheckLink_aborts_only_on_stat sampleAPI sampleTexts sampleUtil
              sampleOpts (always 200) sampleSite 1 sampleDoc
              (sampleLink "private") emptyWorld
              (stated "site/private" emptyWorld) "permission denied" eq_refl)
    as (Hon & Hscheme & Hstat & _).
  exact (conj Hon (conj Hscheme Hstat)).
Defined.

(** X12 on a concrete reference: a directory linked without the slash. *)
Lemma CheckFile_no_slash_one_stat_witness :
  exists out : Outcome,
    CheckFile sampleOpts sampleSite 1 (sampleRef "docs") "docs" emptyWorld = Some out
    /\ statCalls (worldOf out) = ["site/docs"]
    /\ (length (sink (worldOf out)) <= 1)%nat.
Proof.
  exact (CheckFile_no_slash_one_stat sampleOpts sampleSite 0 (sampleRef "docs")
           "docs" emptyWorld eq_refl).
Defined.

(** X13 on a concrete reference: a directory with an index file. *)
Lemma CheckFile_directory_index_witness :
  CheckFile sampleOpts sampleSite 2 (sampleRef "docs/") "docs/" emptyWorld
  = Some (Returned
            (mkWorld
               [refIssue issues.DEBUG "target is a directory" (sampleRef "docs/")]
               ∅ [] ["site/docs"; "site/docs/index.html"] [])).
Proof.
  exact (proj1 (CheckFile_directory_index sampleOpts sampleSite 0
                  (sampleRef "docs/") "docs/" emptyWorld eq_refl eq_refl)
           eq_refl).
Defined.

(** X14 on a concrete run: a 404 is cached, then another link is
    checked. *)
Lemma cached_status_stable_witness :
  let w1 := @CheckExternal sampleAPI sampleTexts sampleUtil sampleOpts (always 404)
              (sampleRef "https://example.com/gone") emptyWorld in
  let w2 := AddIssue (refIssue issues.ERROR "href blank" (sampleRef "")) w1 in
  refcache.CachedURLStatus "https://example.com/gone" w2 = 404.
Proof.
  intros w1 w2.
  apply (@cached_status_stable sampleAPI sampleTexts sampleUtil sampleOpts
           (always 404) sampleSite "https://example.com/gone" 404 w1 w2);
    [reflexivity | lia |].
  apply (later_check sampleOpts (always 404) sampleSite w1 w1 w2 0 sampleDoc
           (sampleLink "")); [apply later_now | reflexivity].
Defined.

(** X15 on a concrete node: an [http] link with external checking off. *)
Lemma CheckLink_enforces_without_probe_witness :
  let ref := sampleRef "http://example.com/" in
  @CheckLink sampleAPI sampleTexts sampleUtil offOpts (always 200) sampleSite 0
     sampleDoc (sampleLink "http://example.com/") emptyWorld
  = Some (Returned
            (mkWorld [refIssue issues.ERROR "is not an HTTPS target" ref;
                      refIssue issues.DEBUG "skipping" ref] ∅ [] [] [])).
Proof.
  apply (@CheckLink_enforces_without_probe sampleAPI sampleTexts sampleUtil
           offOpts (always 200) sampleSite 0 sampleDoc
           (sampleLink "http://example.com/") emptyWorld);
    try (by vm_compute); reflexivity.
Defined.
